(** * Costing engine of calculadora-keto

    A shallow embedding of the costing logic of the bakery calculator:
    [src/types.ts] (units and conversion factors),
    [src/components/Recipes.tsx] (recipe costing and save),
    and the two components bundled in [src/App.tsx]
    (the sale calculator and the ingredient form).

    JavaScript numbers are IEEE 754 binary64 values, so they are modelled by
    Rocq's primitive floats, which are the same binary64 values with the same
    rounding. Strings are modelled by [string], each [ascii] standing for one
    code unit below 256 (the Latin-1 range). *)

From Stdlib Require Import Bool ZArith Ascii String List Floats Lia.
Import ListNotations.

Local Open Scope string_scope.
Local Open Scope list_scope.

(** ** The JavaScript values and built-ins the components use *)

Module JS.

(** A JavaScript [number]. *)
Definition number := float.

(** Global [isNaN] at a number. *)
Definition isNaN (x : number) : bool := PrimFloat.is_nan x.

(** [ToBoolean] at a number: [NaN], [+0] and [-0] are falsy. *)
Definition truthy (x : number) : bool :=
  negb (isNaN x || PrimFloat.eqb x 0%float).

(** [a || b] at numbers. *)
Definition or (a b : number) : number := if truthy a then a else b.

(** [Number.isFinite]. *)
Definition isFinite (x : number) : bool :=
  negb (isNaN x || PrimFloat.is_infinity x).

(** [!s] at a string: only the empty string is falsy. *)
Definition emptyb (s : string) : bool :=
  match s with EmptyString => true | String _ _ => false end.

(** White space and line terminators among the code units below 256:
    TAB, LF, VT, FF, CR, SP and NBSP. *)
Definition isWhiteSpace (c : ascii) : bool :=
  let n := N_of_ascii c in
  ((9 <=? n) && (n <=? 13) || (n =? 32) || (n =? 160))%N.

Fixpoint trimStart (s : string) : string :=
  match s with
  | EmptyString => EmptyString
  | String c r => if isWhiteSpace c then trimStart r else s
  end.

(** [trimEnd] drops the maximal white-space suffix: a white-space code unit
    is kept only when something is kept after it. *)
Fixpoint trimEnd (s : string) : string :=
  match s with
  | EmptyString => EmptyString
  | String c r =>
      let r' := trimEnd r in
      if isWhiteSpace c && emptyb r' then EmptyString else String c r'
  end.

(** [String.prototype.trim]. *)
Definition trim (s : string) : string := trimEnd (trimStart s).

(** The lower-case mapping of a code unit below 256: the letters A to Z and
    the Latin-1 capitals (all of 192 to 222 but the multiplication sign). *)
Definition lowerChar (c : ascii) : ascii :=
  let n := N_of_ascii c in
  if ((65 <=? n) && (n <=? 90) || (192 <=? n) && (n <=? 222) && negb (n =? 215))%N
  then ascii_of_N (n + 32) else c.

(** [String.prototype.toLowerCase]. *)
Fixpoint toLowerCase (s : string) : string :=
  match s with
  | EmptyString => EmptyString
  | String c r => String (lowerChar c) (toLowerCase r)
  end.

(** *** [parseFloat]

    The longest prefix of the left-trimmed input that is a
    [StrDecimalLiteral] is read, and its mathematical value is rounded to
    the nearest binary64 (ties to even); [NaN] when there is no such
    prefix. *)

Definition isDigit (c : ascii) : bool :=
  let n := N_of_ascii c in ((48 <=? n) && (n <=? 57))%N.

Definition digitVal (c : ascii) : Z := Z.of_N (N_of_ascii c) - 48.

(** The maximal run of decimal digits at the head of [s], and the rest. *)
Fixpoint spanDigits (s : string) : list ascii * string :=
  match s with
  | EmptyString => ([], EmptyString)
  | String c r =>
      if isDigit c
      then let '(ds, rest) := spanDigits r in (c :: ds, rest)
      else ([], s)
  end.

Definition digitsValue (ds : list ascii) : Z :=
  fold_left (fun acc c => 10 * acc + digitVal c)%Z ds 0%Z.

(** The sign character, if any: [true] for a minus sign. *)
Definition readSign (s : string) : bool * string :=
  match s with
  | String "+" r => (false, r)
  | String "-" r => (true, r)
  | _ => (false, s)
  end.

(** The value of an [ExponentPart] at the head of [s]; [0] when the text
    after the mantissa does not start with one. *)
Definition readExponent (s : string) : Z :=
  match s with
  | String c r =>
      if (Ascii.eqb c "e" || Ascii.eqb c "E")%char then
        let '(neg, r') := readSign r in
        match spanDigits r' with
        | ([], _) => 0%Z
        | (ds, _) => if neg then (- digitsValue ds)%Z else digitsValue ds
        end
      else 0%Z
  | EmptyString => 0%Z
  end.

(** The binary64 nearest to [(-1)^neg * m * 10^e10]. *)
Definition roundDecimal (neg : bool) (m e10 : Z) : number :=
  match m with
  | Zpos p =>
      let num := match e10 with Zpos _ => (Zpos p * 10 ^ e10)%Z | _ => Zpos p end in
      let den := match e10 with Zneg k => (10 ^ Zpos k)%Z | _ => 1%Z end in
      match num, den with
      | Zpos n, Zpos d =>
          SF2Prim (SFdiv prec emax (S754_finite neg n 0) (S754_finite false d 0))
      | _, _ => PrimFloat.nan
      end
  | _ => if neg then (-0)%float else 0%float
  end.

Definition parseFloat (input : string) : number :=
  let '(neg, s) := readSign (trimStart input) in
  if prefix "Infinity" s then
    (if neg then PrimFloat.neg_infinity else PrimFloat.infinity)
  else
    let '(ip, r1) := spanDigits s in
    let '(fp, r2) :=
      match r1 with
      | String "." r => spanDigits r
      | _ => ([], r1)
      end in
    match ip ++ fp with
    | [] => PrimFloat.nan
    | ds => roundDecimal neg (digitsValue ds)
              (readExponent r2 - Z.of_nat (length fp))
    end.

End JS.

(** ** Abrupt completion

    A JavaScript evaluation either completes normally with a value or throws.
    The only exception the modelled code can raise by itself is the
    [TypeError] of reading a property of [undefined]. *)

Inductive exn : Type := TypeError.

Inductive completion (A : Type) : Type :=
| Normal (a : A)
| Throw (e : exn).
Arguments Normal {A} a.
Arguments Throw {A} e.

Definition bind {A B} (c : completion A) (k : A -> completion B) : completion B :=
  match c with
  | Normal a => k a
  | Throw e => Throw e
  end.

Declare Scope js_scope.
Delimit Scope js_scope with js.
Notation "x <- c ;; k" := (bind c (fun x => k))
  (at level 61, c at next level, right associativity) : js_scope.
Local Open Scope js_scope.

(** [o.f] where [o] may be [undefined]: reading a property of [undefined]
    throws a [TypeError]. *)
Definition prop {O A} (o : option O) (f : O -> A) : completion A :=
  match o with
  | Some v => Normal (f v)
  | None => Throw TypeError
  end.

(** [Array.prototype.forEach] whose callback updates a captured variable of
    type [S] and may throw. *)
Fixpoint forEach {A S} (l : list A) (body : A -> S -> completion S) (s : S)
  : completion S :=
  match l with
  | [] => Normal s
  | x :: r => s' <- body x s ;; forEach r body s'
  end.

(** [Array.prototype.map] whose callback may throw. *)
Fixpoint mapArray {A B} (f : A -> completion B) (l : list A) : completion (list B) :=
  match l with
  | [] => Normal []
  | x :: r => y <- f x ;; ys <- mapArray f r ;; Normal (y :: ys)
  end.

(** ** [src/types.ts] *)

Module Unit.
(** The string values of [enum Unit]. A unit read back from the store is a
    string that need not be one of the four. *)
Definition t := string.
Definition KG : t := "Kg".
Definition GR : t := "Gr".
Definition LT : t := "Lt".
Definition UN : t := "Un".
Definition values : list t := [KG; GR; LT; UN].
End Unit.

Module Ingredient.
Record t : Type := mk {
  id : string;
  userId : string;
  name : string;
  unit : Unit.t;
  quantity : option JS.number;
  pricePerUnit : JS.number
}.
End Ingredient.

Module RecipeIngredient.
Record t : Type := mk {
  ingredientId : string;
  quantityUsed : JS.number;
  calculatedCost : JS.number
}.
End RecipeIngredient.

Module Recipe.
Record t : Type := mk {
  id : string;
  userId : string;
  name : string;
  ingredients : list RecipeIngredient.t;
  totalYieldWeight : JS.number;
  totalCost : JS.number;
  costPerGram : JS.number
}.
End Recipe.

(** [switch (unit)] compares with [===]; every other value takes [default]. *)
Definition getConversionFactor (unit : Unit.t) : JS.number :=
  if String.eqb unit Unit.KG then 1000%float
  else if String.eqb unit Unit.LT then 1000%float
  else if String.eqb unit Unit.GR then 1%float
  else if String.eqb unit Unit.UN then 1%float
  else 1%float.

(** ** [src/components/Recipes.tsx] *)

Module Recipes.

Module LocalRecipeIngredient.
Record t : Type := mk {
  ingredientId : string;
  quantityUsed : string
}.
End LocalRecipeIngredient.

(** The component state the two functions read. *)
Record state : Type := mkState {
  userId : string;
  availableIngredients : list Ingredient.t;
  recipeName : string;
  ingredientsList : list LocalRecipeIngredient.t;
  totalYield : string;
  editingId : option string
}.

(** [availableIngredients.find(i => i.id === ingredientId)] *)
Definition findIngredient (availableIngredients : list Ingredient.t)
    (ingredientId : string) : option Ingredient.t :=
  find (fun i => String.eqb (Ingredient.id i) ingredientId) availableIngredients.

Definition isDefined {A} (o : option A) : bool :=
  match o with Some _ => true | None => false end.

(** The callback of [forEach] in [calculateTotalCost]; [total] is the
    captured accumulator. *)
Definition addUsage (availableIngredients : list Ingredient.t)
    (item : LocalRecipeIngredient.t) (total : JS.number) : completion JS.number :=
  let ing := findIngredient availableIngredients (LocalRecipeIngredient.ingredientId item) in
  let qty := JS.parseFloat (LocalRecipeIngredient.quantityUsed item) in
  if isDefined ing && negb (JS.isNaN qty) then
    unit <- prop ing Ingredient.unit ;;
    let factor := getConversionFactor unit in
    pricePerUnit <- prop ing Ingredient.pricePerUnit ;;
    Normal (total + (pricePerUnit / factor) * qty)%float
  else Normal total.

Definition calculateTotalCost (st : state) : completion JS.number :=
  forEach (ingredientsList st) (addUsage (availableIngredients st)) 0%float.

(** The object handed to [updateDoc] / [addDoc]. *)
Record recipeData : Type := mkRecipeData {
  rd_userId : string;
  rd_name : string;
  rd_ingredients : list RecipeIngredient.t;
  rd_totalYieldWeight : JS.number;
  rd_totalCost : JS.number;
  rd_costPerGram : JS.number
}.

(** What a submit asks of the outside world. *)
Inductive outcome : Type :=
| Alert                                         (* validation failed, nothing written *)
| UpdateDoc (id : string) (data : recipeData)   (* updateDoc(doc(db,'recipes',id), data) *)
| AddDoc (data : recipeData).                   (* addDoc(collection(db,'recipes'), data) *)

(** The callback of [map] that builds [finalIngredients]. The [!] after
    [find(...)] is erased by the compiler: [ing] may be [undefined]. *)
Definition finalIngredient (availableIngredients : list Ingredient.t)
    (item : LocalRecipeIngredient.t) : completion RecipeIngredient.t :=
  let ing := findIngredient availableIngredients (LocalRecipeIngredient.ingredientId item) in
  let qty := JS.parseFloat (LocalRecipeIngredient.quantityUsed item) in
  unit <- prop ing Ingredient.unit ;;
  let factor := getConversionFactor unit in
  pricePerUnit <- prop ing Ingredient.pricePerUnit ;;
  Normal {| RecipeIngredient.ingredientId := LocalRecipeIngredient.ingredientId item;
            RecipeIngredient.quantityUsed := qty;
            RecipeIngredient.calculatedCost := ((pricePerUnit / factor) * qty)%float |}.

(** The test of the validation [if]. *)
Definition invalid (st : state) (yieldWeight : JS.number) : bool :=
  JS.emptyb (recipeName st)
  || (length (ingredientsList st) =? 0)%nat
  || JS.isNaN yieldWeight
  || PrimFloat.leb yieldWeight 0%float.

(** [if (editingId)]: [null] and the empty string are falsy. *)
Definition save (editingId : option string) (data : recipeData) : outcome :=
  match editingId with
  | Some id => if JS.emptyb id then AddDoc data else UpdateDoc id data
  | None => AddDoc data
  end.

(** The part of [handleSubmit] up to the call of the store. All of it runs
    before the [try] block, so an exception raised here is not caught: the
    promise of the [async] function is rejected and the store is not called. *)
Definition handleSubmit (st : state) : completion outcome :=
  let yieldWeight := JS.parseFloat (totalYield st) in
  if invalid st yieldWeight then Normal Alert
  else
    totalCost <- calculateTotalCost st ;;
    let costPerGram := (totalCost / yieldWeight)%float in
    finalIngredients <-
      mapArray (finalIngredient (availableIngredients st)) (ingredientsList st) ;;
    let data := {| rd_userId := userId st;
                   rd_name := recipeName st;
                   rd_ingredients := finalIngredients;
                   rd_totalYieldWeight := yieldWeight;
                   rd_totalCost := totalCost;
                   rd_costPerGram := costPerGram |} in
    Normal (save (editingId st) data).

End Recipes.

(** ** The sale calculator of [src/App.tsx] *)

Module Calculator.

Record state : Type := mkState {
  recipes : list Recipe.t;
  selectedRecipeId : string;
  sellWeight : string
}.

Definition selectedRecipe (st : state) : option Recipe.t :=
  find (fun r => String.eqb (Recipe.id r) (selectedRecipeId st)) (recipes st).

Definition weight (st : state) : JS.number :=
  JS.or (JS.parseFloat (sellWeight st)) 0%float.

Definition costPerGram (st : state) : JS.number :=
  match selectedRecipe st with
  | Some r => Recipe.costPerGram r
  | None => 0%float
  end.

Definition realCost (st : state) : JS.number := (costPerGram st * weight st)%float.
Definition suggestedPrice (st : state) : JS.number := (realCost st * 3)%float.
Definition profit (st : state) : JS.number := (suggestedPrice st - realCost st)%float.

End Calculator.

(** ** The ingredient form of [src/App.tsx] *)

Module Ingredients.

Record state : Type := mkState {
  userId : string;
  ingredients : list Ingredient.t;
  name : string;
  unit : Unit.t;
  price : string;
  editingId : option string
}.

(** The object handed to [updateDoc] / [addDoc]. *)
Record ingredientData : Type := mkIngredientData {
  d_name : string;
  d_unit : Unit.t;
  d_pricePerUnit : JS.number;
  d_userId : string
}.

Inductive outcome : Type :=
| Return                                           (* bare [return], nothing written *)
| DuplicateError                                   (* setError(...), nothing written *)
| UpdateDoc (id : string) (data : ingredientData)
| AddDoc (data : ingredientData).

(** [ing.id !== editingId], where [editingId] is a string or [null]. *)
Definition differs (id : string) (editingId : option string) : bool :=
  match editingId with
  | Some e => negb (String.eqb id e)
  | None => true
  end.

(** The constant [exists] of the source ([exists] is reserved here). *)
Definition exists_ (ingredients : list Ingredient.t) (trimmedName : string)
    (editingId : option string) : bool :=
  existsb (fun ing =>
             String.eqb (JS.toLowerCase (Ingredient.name ing)) (JS.toLowerCase trimmedName)
             && differs (Ingredient.id ing) editingId)
          ingredients.

Definition save (editingId : option string) (data : ingredientData) : outcome :=
  match editingId with
  | Some id => if JS.emptyb id then AddDoc data else UpdateDoc id data
  | None => AddDoc data
  end.

Definition handleSubmit (st : state) : outcome :=
  let trimmedName := JS.trim (name st) in
  if JS.emptyb trimmedName || JS.emptyb (price st) then Return
  else if exists_ (ingredients st) trimmedName (editingId st) then DuplicateError
  else
    let ingredientData := {| d_name := trimmedName;
                             d_unit := unit st;
                             d_pricePerUnit := JS.parseFloat (price st);
                             d_userId := userId st |} in
    save (editingId st) ingredientData.

End Ingredients.

(** ** The contracts of the specification

    The costing contracts written after the words of the specification
    (sections 4.1 to 4.3), to be compared with the code above. *)

Module Spec.

(** Section 4.1: the table of factors; an unknown unit has factor 1. *)
Definition conversionFactor (unit : Unit.t) : JS.number :=
  if existsb (String.eqb unit) [Unit.KG; Unit.LT] then 1000%float else 1%float.

(** Section 4.2: [cost = (pricePerPurchaseUnit / factor) * quantityUsed]. *)
Definition usageCost (ingredient : Ingredient.t) (quantityUsed : JS.number) : JS.number :=
  let factor := conversionFactor (Ingredient.unit ingredient) in
  (Ingredient.pricePerUnit ingredient / factor * quantityUsed)%float.

Definition resolve (available : list Ingredient.t) (ingredientId : string)
  : option Ingredient.t :=
  find (fun i => String.eqb (Ingredient.id i) ingredientId) available.

(** A usage counts when its reference resolves and its quantity parses. *)
Definition counts (available : list Ingredient.t)
    (u : Recipes.LocalRecipeIngredient.t) : bool :=
  match resolve available (Recipes.LocalRecipeIngredient.ingredientId u) with
  | Some _ => negb (JS.isNaN (JS.parseFloat (Recipes.LocalRecipeIngredient.quantityUsed u)))
  | None => false
  end.

(** The cost of one usage; an unresolved reference costs 0. *)
Definition costOf (available : list Ingredient.t)
    (u : Recipes.LocalRecipeIngredient.t) : JS.number :=
  match resolve available (Recipes.LocalRecipeIngredient.ingredientId u) with
  | Some ing => usageCost ing (JS.parseFloat (Recipes.LocalRecipeIngredient.quantityUsed u))
  | None => 0%float
  end.

(** Sums run left to right from 0, as an accumulating loop does. *)
Definition sum (l : list JS.number) : JS.number := fold_left PrimFloat.add l 0%float.

Definition totalCost (available : list Ingredient.t)
    (usages : list Recipes.LocalRecipeIngredient.t) : JS.number :=
  sum (map (costOf available) (filter (counts available) usages)).

(** Section 4.3: [costRecipe(usages, yieldWeight)]. *)
Definition costRecipe (available : list Ingredient.t)
    (usages : list Recipes.LocalRecipeIngredient.t) (yieldWeight : JS.number)
  : JS.number * JS.number :=
  let total := totalCost available usages in
  (total, (total / yieldWeight)%float).

Definition MARKUP : JS.number := 3%float.

Record price : Type := mkPrice {
  realCost : JS.number;
  suggestedPrice : JS.number;
  profit : JS.number
}.

(** Section 4.3: [priceRecipe(costPerUnit, quantitySold)]. *)
Definition priceRecipe (costPerUnit quantitySold : JS.number) : price :=
  let realCost := (costPerUnit * quantitySold)%float in
  let suggestedPrice := (realCost * MARKUP)%float in
  {| realCost := realCost;
     suggestedPrice := suggestedPrice;
     profit := (suggestedPrice - realCost)%float |}.

(** The invariant of section 3 on a record about to be persisted. Its [==]
    is the comparison of numbers, which is false when a side is [NaN]. *)
Definition snapshotInvariant (d : Recipes.recipeData) : Prop :=
  PrimFloat.eqb (Recipes.rd_totalCost d)
    (sum (map RecipeIngredient.calculatedCost (Recipes.rd_ingredients d))) = true
  /\ PrimFloat.eqb (Recipes.rd_costPerGram d)
       (Recipes.rd_totalCost d / Recipes.rd_totalYieldWeight d)%float = true.

End Spec.

(** ** Helpers for stating the results *)

(** The effect of [setIngredientsList] on the component state. *)
Definition setIngredientsList (st : Recipes.state)
    (l : list Recipes.LocalRecipeIngredient.t) : Recipes.state :=
  {| Recipes.userId := Recipes.userId st;
     Recipes.availableIngredients := Recipes.availableIngredients st;
     Recipes.recipeName := Recipes.recipeName st;
     Recipes.ingredientsList := l;
     Recipes.totalYield := Recipes.totalYield st;
     Recipes.editingId := Recipes.editingId st |}.

(** The record a submit asked the store to write, if any. *)
Definition written (o : Recipes.outcome) : option Recipes.recipeData :=
  match o with
  | Recipes.Alert => None
  | Recipes.UpdateDoc _ d => Some d
  | Recipes.AddDoc d => Some d
  end.

Definition writtenIngredient (o : Ingredients.outcome) : option Ingredients.ingredientData :=
  match o with
  | Ingredients.Return => None
  | Ingredients.DuplicateError => None
  | Ingredients.UpdateDoc _ d => Some d
  | Ingredients.AddDoc d => Some d
  end.

(** ** Sample data of the scenarios *)

Definition almondFlour : Ingredient.t :=
  {| Ingredient.id := "i1"; Ingredient.userId := "u1"; Ingredient.name := "Harina de Almendras";
     Ingredient.unit := Unit.KG; Ingredient.quantity := None;
     Ingredient.pricePerUnit := 10000%float |}.

Definition egg : Ingredient.t :=
  {| Ingredient.id := "i2"; Ingredient.userId := "u1"; Ingredient.name := "Huevo";
     Ingredient.unit := Unit.UN; Ingredient.quantity := None;
     Ingredient.pricePerUnit := 5%float |}.

Definition usage (ingredientId quantityUsed : string) : Recipes.LocalRecipeIngredient.t :=
  {| Recipes.LocalRecipeIngredient.ingredientId := ingredientId;
     Recipes.LocalRecipeIngredient.quantityUsed := quantityUsed |}.

Definition form (name : string) (usages : list Recipes.LocalRecipeIngredient.t)
    (yield : string) : Recipes.state :=
  {| Recipes.userId := "u1";
     Recipes.availableIngredients := [almondFlour; egg];
     Recipes.recipeName := name;
     Recipes.ingredientsList := usages;
     Recipes.totalYield := yield;
     Recipes.editingId := None |}.

Definition cake : Recipe.t :=
  {| Recipe.id := "r1"; Recipe.userId := "u1"; Recipe.name := "Torta";
     Recipe.ingredients :=
       [ {| RecipeIngredient.ingredientId := "i1";
            RecipeIngredient.quantityUsed := 200%float;
            RecipeIngredient.calculatedCost := 2000%float |};
         {| RecipeIngredient.ingredientId := "i1";
            RecipeIngredient.quantityUsed := 200%float;
            RecipeIngredient.calculatedCost := 2000%float |} ];
     Recipe.totalYieldWeight := 1000%float;
     Recipe.totalCost := 4000%float;
     Recipe.costPerGram := 4%float |}.

Definition sale (selectedRecipeId sellWeight : string) : Calculator.state :=
  {| Calculator.recipes := [cake];
     Calculator.selectedRecipeId := selectedRecipeId;
     Calculator.sellWeight := sellWeight |}.

Definition ingredientForm (name price : string) : Ingredients.state :=
  {| Ingredients.userId := "u1";
     Ingredients.ingredients := [almondFlour; egg];
     Ingredients.name := name;
     Ingredients.unit := Unit.KG;
     Ingredients.price := price;
     Ingredients.editingId := None |}.

(** The effect of [setName] on the state of the ingredient form. *)
Definition setName (st : Ingredients.state) (name : string) : Ingredients.state :=
  {| Ingredients.userId := Ingredients.userId st;
     Ingredients.ingredients := Ingredients.ingredients st;
     Ingredients.name := name;
     Ingredients.unit := Ingredients.unit st;
     Ingredients.price := Ingredients.price st;
     Ingredients.editingId := Ingredients.editingId st |}.

(** A form whose two usages, at prices of 2^1023 and -2^1023 per unit, cost
    [+Infinity] and [-Infinity]. *)
Definition overflowForm : Recipes.state :=
  {| Recipes.userId := "u1";
     Recipes.availableIngredients :=
       [ {| Ingredient.id := "a"; Ingredient.userId := "u1"; Ingredient.name := "A";
            Ingredient.unit := Unit.UN; Ingredient.quantity := None;
            Ingredient.pricePerUnit := 0x1p+1023%float |};
         {| Ingredient.id := "b"; Ingredient.userId := "u1"; Ingredient.name := "B";
            Ingredient.unit := Unit.UN; Ingredient.quantity := None;
            Ingredient.pricePerUnit := (-0x1p+1023)%float |} ];
     Recipes.recipeName := "Torta";
     Recipes.ingredientsList := [usage "a" "10"; usage "b" "10"];
     Recipes.totalYield := "1000";
     Recipes.editingId := None |}.

(** The effect of [setPrice] on the state of the ingredient form. *)
Definition setPrice (st : Ingredients.state) (price : string) : Ingredients.state :=
  {| Ingredients.userId := Ingredients.userId st;
     Ingredients.ingredients := Ingredients.ingredients st;
     Ingredients.name := Ingredients.name st;
     Ingredients.unit := Ingredients.unit st;
     Ingredients.price := price;
     Ingredients.editingId := Ingredients.editingId st |}.

(** A string made of white space only (the empty string included). *)
Fixpoint allWhiteSpace (s : string) : bool :=
  match s with
  | EmptyString => true
  | String c r => JS.isWhiteSpace c && allWhiteSpace r
  end.

(** The first and the last code unit of a string. *)
Definition firstChar (s : string) : option ascii :=
  match s with
  | EmptyString => None
  | String c _ => Some c
  end.

Fixpoint lastChar (s : string) : option ascii :=
  match s with
  | EmptyString => None
  | String c EmptyString => Some c
  | String _ r => lastChar r
  end.

Definition notWhiteSpace (o : option ascii) : Prop :=
  forall c, o = Some c -> JS.isWhiteSpace c = false.

(** ** The rest of the recipe form of [src/components/Recipes.tsx] *)

Module RecipesForm.

(** [addIngredientRow]: a blank row is appended. *)
Definition addIngredientRow (st : Recipes.state) : Recipes.state :=
  setIngredientsList st
    (Recipes.ingredientsList st
       ++ [ {| Recipes.LocalRecipeIngredient.ingredientId := "";
               Recipes.LocalRecipeIngredient.quantityUsed := "" |} ]).

(** [splice(index, 1)] on a copy of the array, at an index that is a natural
    number (the component passes the index of a rendered row): the element at
    [index] is removed, and nothing is removed past the end. *)
Fixpoint splice1 {A} (index : nat) (l : list A) {struct l} : list A :=
  match l, index with
  | [], _ => []
  | _ :: r, O => r
  | x :: r, S i => x :: splice1 i r
  end.

Definition removeIngredientRow (st : Recipes.state) (index : nat) : Recipes.state :=
  setIngredientsList st (splice1 index (Recipes.ingredientsList st)).

(** [keyof LocalRecipeIngredient]. *)
Inductive field : Type := ingredientId | quantityUsed.

(** [{ ...row, [field]: value }] *)
Definition withField (row : Recipes.LocalRecipeIngredient.t) (f : field) (value : string)
  : Recipes.LocalRecipeIngredient.t :=
  match f with
  | ingredientId =>
      {| Recipes.LocalRecipeIngredient.ingredientId := value;
         Recipes.LocalRecipeIngredient.quantityUsed :=
           Recipes.LocalRecipeIngredient.quantityUsed row |}
  | quantityUsed =>
      {| Recipes.LocalRecipeIngredient.ingredientId :=
           Recipes.LocalRecipeIngredient.ingredientId row;
         Recipes.LocalRecipeIngredient.quantityUsed := value |}
  end.

(** [newList[index] = { ...newList[index], [field]: value }] at the index of an
    existing row. Past the end the assignment would leave holes and a row
    without its other field, which is no [LocalRecipeIngredient[]]: [None]. *)
Fixpoint assignRow (l : list Recipes.LocalRecipeIngredient.t) (index : nat)
    (f : field) (value : string) : option (list Recipes.LocalRecipeIngredient.t) :=
  match l, index with
  | [], _ => None
  | row :: r, O => Some (withField row f value :: r)
  | row :: r, S i => option_map (cons row) (assignRow r i f value)
  end.

Definition handleRowChange (st : Recipes.state) (index : nat) (f : field) (value : string)
  : option Recipes.state :=
  option_map (setIngredientsList st) (assignRow (Recipes.ingredientsList st) index f value).

Definition resetForm (st : Recipes.state) : Recipes.state :=
  {| Recipes.userId := Recipes.userId st;
     Recipes.availableIngredients := Recipes.availableIngredients st;
     Recipes.recipeName := "";
     Recipes.ingredientsList := [];
     Recipes.totalYield := "";
     Recipes.editingId := None |}.

(** [editingId === id] *)
Definition isEditing (st : Recipes.state) (id : string) : bool :=
  match Recipes.editingId st with
  | Some e => String.eqb e id
  | None => false
  end.

(** [handleDelete]. [st] is the state the handler closed over at the click,
    [confirmed] the answer of [window.confirm] and [deleted] tells whether
    [deleteDoc] resolved. The result is whether [deleteDoc] was called, and
    the update the handler makes once the promise has settled: it applies to
    the state of the form at that moment, which other events may have changed
    since the click, while [editingId === id] reads the state of the click. *)
Definition handleDelete (st : Recipes.state) (id : string) (confirmed deleted : bool)
  : bool * (Recipes.state -> Recipes.state) :=
  if JS.emptyb id then (false, fun now => now)
  else if confirmed then
    if deleted then (true, if isEditing st id then resetForm else fun now => now)
    else (true, fun now => now)
  else (false, fun now => now).

(** [getIngredientUnitLabel]: the [switch] is on the string of the unit. *)
Definition getIngredientUnitLabel (st : Recipes.state) (id : string) : string :=
  match Recipes.findIngredient (Recipes.availableIngredients st) id with
  | None => "cant"
  | Some ing =>
      if String.eqb (Ingredient.unit ing) "Kg" then "gramos"
      else if String.eqb (Ingredient.unit ing) "Lt" then "ml"
      else "unidades"
  end.

Section WithNumberToString.

(** [Number.prototype.toString], left abstract: what follows holds whatever
    text it gives to a number. *)
Variable numberToString : JS.number -> string.

(** [handleEdit]: a saved recipe is loaded into the form. *)
Definition handleEdit (st : Recipes.state) (recipe : Recipe.t) : Recipes.state :=
  {| Recipes.userId := Recipes.userId st;
     Recipes.availableIngredients := Recipes.availableIngredients st;
     Recipes.recipeName := Recipe.name recipe;
     Recipes.ingredientsList :=
       map (fun i =>
              {| Recipes.LocalRecipeIngredient.ingredientId := RecipeIngredient.ingredientId i;
                 Recipes.LocalRecipeIngredient.quantityUsed :=
                   numberToString (RecipeIngredient.quantityUsed i) |})
           (Recipe.ingredients recipe);
     Recipes.totalYield := numberToString (Recipe.totalYieldWeight recipe);
     Recipes.editingId := Some (Recipe.id recipe) |}.

End WithNumberToString.

End RecipesForm.

(** ** The rest of the ingredient form of [src/App.tsx] *)

Module IngredientsForm.

Section WithNumberToString.

Variable numberToString : JS.number -> string.

(** [handleEdit]: an ingredient is loaded into the form. *)
Definition handleEdit (st : Ingredients.state) (ing : Ingredient.t) : Ingredients.state :=
  {| Ingredients.userId := Ingredients.userId st;
     Ingredients.ingredients := Ingredients.ingredients st;
     Ingredients.name := Ingredient.name ing;
     Ingredients.unit := Ingredient.unit ing;
     Ingredients.price := numberToString (Ingredient.pricePerUnit ing);
     Ingredients.editingId := Some (Ingredient.id ing) |}.

End WithNumberToString.

End IngredientsForm.

(** ** The rest of the sale calculator of [src/App.tsx] *)

Module CalculatorView.

(** [selectedRecipeId && weight > 0]: whether the result cards, and with
    them the ticket button, are rendered. *)
Definition shown (st : Calculator.state) : bool :=
  negb (JS.emptyb (Calculator.selectedRecipeId st))
  && PrimFloat.ltb 0 (Calculator.weight st).

(** [s.replace(/\s+/g, '_')]: every maximal run of white space becomes one
    underscore. [inRun] tells that the code unit before was white space. *)
Fixpoint underscoreRuns (inRun : bool) (s : string) : string :=
  match s with
  | EmptyString => EmptyString
  | String c r =>
      if JS.isWhiteSpace c then
        if inRun then underscoreRuns true r else String "_" (underscoreRuns true r)
      else String c (underscoreRuns false r)
  end.

Definition replaceWhiteSpace (s : string) : string := underscoreRuns false s.

(** What [generateTicket] hands to the PDF library: the texts are drawn from
    the recipe name, the weight and the suggested price, and the file is
    saved under [fileName]. *)
Record ticket : Type := mkTicket {
  t_recipeName : string;
  t_weight : JS.number;
  t_suggestedPrice : JS.number;
  t_fileName : string
}.

(** [generateTicket]: nothing is drawn when no recipe is selected. *)
Definition generateTicket (st : Calculator.state) : option ticket :=
  match Calculator.selectedRecipe st with
  | None => None
  | Some r =>
      Some {| t_recipeName := Recipe.name r;
              t_weight := Calculator.weight st;
              t_suggestedPrice := Calculator.suggestedPrice st;
              t_fileName := replaceWhiteSpace (Recipe.name r) ++ "_ticket.pdf" |}
  end.

End CalculatorView.

(** A function that agrees with [Number.prototype.toString] on the numbers
    of the sample data. *)
Definition sampleToString (x : JS.number) : string :=
  if PrimFloat.eqb x 200 then "200"
  else if PrimFloat.eqb x 1000 then "1000"
  else if PrimFloat.eqb x 5 then "5"
  else "10000".

(** No white-space code unit occurs in a string. *)
Fixpoint noWhiteSpace (s : string) : bool :=
  match s with
  | EmptyString => true
  | String c r => negb (JS.isWhiteSpace c) && noWhiteSpace r
  end.

(** ** General lemmas *)

Lemma forEach_app {A S} (body : A -> S -> completion S) (l1 l2 : list A) (s : S) :
  forEach (l1 ++ l2) body s = (s' <- forEach l1 body s ;; forEach l2 body s').
Proof.
  revert s. induction l1 as [|x l1 IH]; intros s; simpl; [reflexivity|].
  destruct (body x s) as [s1|e]; simpl; [apply IH | reflexivity].
Qed.

(** The code's [switch] computes the table of section 4.1. *)
Lemma getConversionFactor_table (u : Unit.t) :
  getConversionFactor u = Spec.conversionFactor u.
Proof.
  unfold getConversionFactor, Spec.conversionFactor. simpl.
  destruct (String.eqb u Unit.KG); [reflexivity|].
  destruct (String.eqb u Unit.LT); [reflexivity|].
  destruct (String.eqb u Unit.GR); [reflexivity|].
  destruct (String.eqb u Unit.UN); reflexivity.
Qed.

(** Multiplication of binary64 values is commutative, [NaN] included. *)
Lemma SFmul_comm (x y : spec_float) : SFmul prec emax x y = SFmul prec emax y x.
Proof.
  destruct x as [sx|sx| |sx mx ex], y as [sy|sy| |sy my ey]; simpl;
    try reflexivity; try (now rewrite xorb_comm).
  now rewrite xorb_comm, Pos.mul_comm, Z.add_comm.
Qed.

Lemma mul_comm (x y : JS.number) : (x * y)%float = (y * x)%float.
Proof.
  apply Prim2SF_inj. rewrite !mul_spec. apply SFmul_comm.
Qed.

(** ** The running total of [calculateTotalCost] *)

Section RunningTotal.

Variable available : list Ingredient.t.

Lemma addUsage_counts (item : Recipes.LocalRecipeIngredient.t) (total : JS.number) :
  Spec.counts available item = true ->
  Recipes.addUsage available item total
  = Normal (total + Spec.costOf available item)%float.
Proof.
  unfold Spec.counts, Spec.costOf, Recipes.addUsage, Recipes.findIngredient, Spec.resolve.
  destruct (find _ available) as [ing|]; [|discriminate].
  intros Hq. simpl. rewrite Hq. simpl.
  unfold Spec.usageCost. now rewrite getConversionFactor_table.
Qed.

Lemma addUsage_skips (item : Recipes.LocalRecipeIngredient.t) (total : JS.number) :
  Spec.counts available item = false ->
  Recipes.addUsage available item total = Normal total.
Proof.
  unfold Spec.counts, Recipes.addUsage, Recipes.findIngredient, Spec.resolve.
  destruct (find _ available) as [ing|]; [|reflexivity].
  intros Hq. simpl. now rewrite Hq.
Qed.

Lemma forEach_addUsage (items : list Recipes.LocalRecipeIngredient.t) (total : JS.number) :
  forEach items (Recipes.addUsage available) total
  = Normal (fold_left PrimFloat.add
              (map (Spec.costOf available) (filter (Spec.counts available) items))
              total).
Proof.
  revert total. induction items as [|item items IH]; intros total; simpl; [reflexivity|].
  destruct (Spec.counts available item) eqn:Hc.
  - rewrite (addUsage_counts _ _ Hc). simpl. apply IH.
  - rewrite (addUsage_skips _ _ Hc). simpl. apply IH.
Qed.

End RunningTotal.

(** [calculateTotalCost] never throws and returns the sum, taken in order,
    of the costs of the usages that count. *)
Lemma calculateTotalCost_sum (st : Recipes.state) :
  Recipes.calculateTotalCost st
  = Normal (Spec.totalCost (Recipes.availableIngredients st) (Recipes.ingredientsList st)).
Proof.
  unfold Recipes.calculateTotalCost, Spec.totalCost, Spec.sum. apply forEach_addUsage.
Qed.

Lemma filter_counts_app_skip (available : list Ingredient.t)
    (pre post : list Recipes.LocalRecipeIngredient.t) (item : Recipes.LocalRecipeIngredient.t) :
  Spec.counts available item = false ->
  filter (Spec.counts available) (pre ++ item :: post)
  = filter (Spec.counts available) (pre ++ post).
Proof.
  intros Hc. rewrite !filter_app. simpl. now rewrite Hc.
Qed.

(** ** The rows of [finalIngredients] *)

Lemma finalIngredient_resolved (available : list Ingredient.t)
    (item : Recipes.LocalRecipeIngredient.t) (ing : Ingredient.t) :
  Recipes.findIngredient available (Recipes.LocalRecipeIngredient.ingredientId item) = Some ing ->
  Recipes.finalIngredient available item
  = Normal {| RecipeIngredient.ingredientId := Recipes.LocalRecipeIngredient.ingredientId item;
              RecipeIngredient.quantityUsed :=
                JS.parseFloat (Recipes.LocalRecipeIngredient.quantityUsed item);
              RecipeIngredient.calculatedCost :=
                Spec.usageCost ing (JS.parseFloat (Recipes.LocalRecipeIngredient.quantityUsed item)) |}.
Proof.
  intros Hf. unfold Recipes.finalIngredient. rewrite Hf. simpl.
  unfold Spec.usageCost. now rewrite getConversionFactor_table.
Qed.

Lemma finalIngredient_unresolved (available : list Ingredient.t)
    (item : Recipes.LocalRecipeIngredient.t) :
  Recipes.findIngredient available (Recipes.LocalRecipeIngredient.ingredientId item) = None ->
  Recipes.finalIngredient available item = Throw TypeError.
Proof.
  intros Hf. unfold Recipes.finalIngredient. now rewrite Hf.
Qed.

(** [map] throws as soon as one row does. *)
Lemma mapArray_throws {A B} (f : A -> completion B) (l : list A) (x : A) (e : exn) :
  In x l -> f x = Throw e -> exists e', mapArray f l = Throw e'.
Proof.
  induction l as [|y l IH]; intros Hin Hx; [contradiction|].
  simpl. destruct Hin as [->|Hin].
  - rewrite Hx. now exists e.
  - destruct (f y) as [b|e1]; simpl; [|now exists e1].
    destruct (IH Hin Hx) as [e' ->]. now exists e'.
Qed.

(** When every row completes normally, so does [map], with one entry per row. *)
Lemma mapArray_normal {A B} (f : A -> completion B) (g : A -> B) (l : list A) :
  (forall x, In x l -> f x = Normal (g x)) -> mapArray f l = Normal (map g l).
Proof.
  induction l as [|y l IH]; intros H; simpl; [reflexivity|].
  rewrite (H y (or_introl eq_refl)). simpl.
  rewrite IH; [reflexivity|]. intros x Hx. apply H. now right.
Qed.

(** ** Facts on binary64 comparison *)

Lemma SFcompare_refl_finite (s : bool) (m : positive) (e : Z) :
  SFcompare (S754_finite s m e) (S754_finite s m e) = Some Eq.
Proof.
  simpl. destruct s; rewrite Z.compare_refl, ?Pos.compare_refl; reflexivity.
Qed.

(** [0 < y] holds exactly when [y] is not [NaN] and [y <= 0] fails. *)
Lemma positive_spec (y : JS.number) :
  PrimFloat.ltb 0 y = true <-> (JS.isNaN y = false /\ PrimFloat.leb y 0 = false).
Proof.
  unfold JS.isNaN, PrimFloat.is_nan.
  rewrite ltb_spec, leb_spec, eqb_spec.
  change (Prim2SF 0) with (S754_zero false).
  unfold SFltb, SFleb, SFeqb.
  destruct (Prim2SF y) as [s|s| |s m e].
  - simpl. destruct s; split; try discriminate; intros [_ H]; discriminate.
  - destruct s; simpl; split; try discriminate;
      try (intros [_ H]; discriminate); now split.
  - simpl. split; [discriminate | intros [H _]; discriminate].
  - rewrite SFcompare_refl_finite. destruct s; simpl; split; try discriminate;
      try (intros [_ H]; discriminate); now split.
Qed.

(** [q || 0] is [q] for every number [q] other than [NaN] and [-0]. *)
Lemma or_zero_id (q : JS.number) :
  JS.isNaN q = false -> q <> (-0)%float -> JS.or q 0%float = q.
Proof.
  intros Hnan Hneg. unfold JS.or, JS.truthy. rewrite Hnan. simpl.
  destruct (PrimFloat.eqb q 0) eqn:He; simpl; [|reflexivity].
  rewrite eqb_spec in He. change (Prim2SF 0) with (S754_zero false) in He.
  unfold SFeqb in He. rewrite <- (SF2Prim_Prim2SF q) in Hneg |- *.
  destruct (Prim2SF q) as [s|s| |s m e]; simpl in He.
  - destruct s; [now elim Hneg | reflexivity].
  - destruct s; discriminate.
  - discriminate.
  - destruct s; discriminate.
Qed.

(** A number compares [==] to itself exactly when it is not [NaN]. *)
Lemma eqb_same (x y : JS.number) :
  x = y -> PrimFloat.eqb x y = negb (JS.isNaN x).
Proof.
  intros <-. unfold JS.isNaN, PrimFloat.is_nan. now rewrite negb_involutive.
Qed.

(** ** Facts on [trim] *)

Lemma trimStart_head (s : string) : notWhiteSpace (firstChar (JS.trimStart s)).
Proof.
  induction s as [|c r IH]; simpl.
  - intros c H. discriminate.
  - destruct (JS.isWhiteSpace c) eqn:Hc; [exact IH|].
    intros c' [= <-]. exact Hc.
Qed.

Lemma trimStart_fixed (s : string) :
  notWhiteSpace (firstChar s) -> JS.trimStart s = s.
Proof.
  destruct s as [|c r]; simpl; [reflexivity|].
  intros H. now rewrite (H c eq_refl).
Qed.

Lemma trimStart_blank (s : string) :
  JS.trimStart s = "" <-> allWhiteSpace s = true.
Proof.
  induction s as [|c r IH]; simpl; [tauto|].
  destruct (JS.isWhiteSpace c); simpl; [exact IH|].
  split; discriminate.
Qed.

Lemma trimEnd_head (s : string) :
  notWhiteSpace (firstChar s) -> notWhiteSpace (firstChar (JS.trimEnd s)).
Proof.
  destruct s as [|c r]; simpl; [intros _ c H; discriminate|].
  intros H. rewrite (H c eq_refl). simpl. exact H.
Qed.

Lemma trimEnd_last (s : string) : notWhiteSpace (lastChar (JS.trimEnd s)).
Proof.
  induction s as [|c r IH]; simpl.
  - intros c H. discriminate.
  - destruct (JS.isWhiteSpace c) eqn:Hc; simpl.
    + destruct (JS.trimEnd r) as [|c1 r1] eqn:Hr; simpl.
      * intros c' H. discriminate.
      * exact IH.
    + destruct (JS.trimEnd r) as [|c1 r1] eqn:Hr; simpl.
      * intros c' [= <-]. exact Hc.
      * exact IH.
Qed.

Lemma trimEnd_fixed (s : string) :
  notWhiteSpace (lastChar s) -> JS.trimEnd s = s.
Proof.
  induction s as [|c r IH]; simpl; [reflexivity|].
  destruct r as [|c1 r1].
  - intros H. simpl. now rewrite (H c eq_refl).
  - intros H. rewrite (IH H). simpl. now rewrite andb_false_r.
Qed.

Lemma trim_idempotent (s : string) : JS.trim (JS.trim s) = JS.trim s.
Proof.
  unfold JS.trim.
  rewrite (trimStart_fixed (JS.trimEnd (JS.trimStart s))).
  - apply trimEnd_fixed, trimEnd_last.
  - apply trimEnd_head, trimStart_head.
Qed.

Lemma trim_blank (s : string) : allWhiteSpace s = true -> JS.trim s = "".
Proof.
  intros H. unfold JS.trim. apply trimStart_blank in H. now rewrite H.
Qed.

Lemma emptyb_true (s : string) : JS.emptyb s = true <-> s = "".
Proof.
  destruct s; simpl; split; intros H; try reflexivity; discriminate.
Qed.

Lemma length_zero {A} (l : list A) : (length l =? 0)%nat = true <-> l = [].
Proof.
  destruct l; simpl; split; intros H; try reflexivity; discriminate.
Qed.

(** ** The recipe submit, step by step *)

Lemma save_written (editingId : option string) (d : Recipes.recipeData) :
  written (Recipes.save editingId d) = Some d.
Proof.
  destruct editingId as [id|]; simpl; [|reflexivity].
  destruct (JS.emptyb id); reflexivity.
Qed.

Lemma invalid_spec (st : Recipes.state) (y : JS.number) :
  Recipes.invalid st y = true <->
  (Recipes.recipeName st = "" \/ Recipes.ingredientsList st = []
   \/ JS.isNaN y = true \/ PrimFloat.leb y 0 = true).
Proof.
  unfold Recipes.invalid.
  rewrite !orb_true_iff, emptyb_true, length_zero. tauto.
Qed.

(** A state is valid exactly when the name and the list are not empty and
    the parsed yield is positive. *)
Lemma valid_spec (st : Recipes.state) (y : JS.number) :
  Recipes.invalid st y = false <->
  (Recipes.recipeName st <> "" /\ Recipes.ingredientsList st <> []
   /\ PrimFloat.ltb 0 y = true).
Proof.
  rewrite positive_spec, <- not_true_iff_false, invalid_spec.
  destruct (JS.isNaN y), (PrimFloat.leb y 0); intuition congruence.
Qed.

(** Past validation, the submit either throws while building the rows or
    asks the store to write a record carrying the computed costs. *)
Lemma handleSubmit_valid (st : Recipes.state) :
  let yieldWeight := JS.parseFloat (Recipes.totalYield st) in
  let totalCost :=
    Spec.totalCost (Recipes.availableIngredients st) (Recipes.ingredientsList st) in
  Recipes.invalid st yieldWeight = false ->
  Recipes.handleSubmit st
  = (rows <- mapArray (Recipes.finalIngredient (Recipes.availableIngredients st))
                      (Recipes.ingredientsList st) ;;
     Normal (Recipes.save (Recipes.editingId st)
               {| Recipes.rd_userId := Recipes.userId st;
                  Recipes.rd_name := Recipes.recipeName st;
                  Recipes.rd_ingredients := rows;
                  Recipes.rd_totalYieldWeight := yieldWeight;
                  Recipes.rd_totalCost := totalCost;
                  Recipes.rd_costPerGram := (totalCost / yieldWeight)%float |})).
Proof.
  intros yieldWeight totalCost Hv. unfold Recipes.handleSubmit.
  fold yieldWeight. rewrite Hv, calculateTotalCost_sum. reflexivity.
Qed.

Lemma handleSubmit_invalid (st : Recipes.state) :
  Recipes.invalid st (JS.parseFloat (Recipes.totalYield st)) = true ->
  Recipes.handleSubmit st = Normal Recipes.Alert.
Proof.
  intros Hv. unfold Recipes.handleSubmit. now rewrite Hv.
Qed.

(** Whatever a submit writes carries the total of the usages that count and
    that total divided by the parsed yield. *)
Lemma handleSubmit_written (st : Recipes.state) (o : Recipes.outcome)
    (d : Recipes.recipeData) :
  Recipes.handleSubmit st = Normal o -> written o = Some d ->
  Recipes.invalid st (JS.parseFloat (Recipes.totalYield st)) = false
  /\ mapArray (Recipes.finalIngredient (Recipes.availableIngredients st))
              (Recipes.ingredientsList st) = Normal (Recipes.rd_ingredients d)
  /\ Recipes.rd_totalYieldWeight d = JS.parseFloat (Recipes.totalYield st)
  /\ Recipes.rd_totalCost d
     = Spec.totalCost (Recipes.availableIngredients st) (Recipes.ingredientsList st)
  /\ Recipes.rd_costPerGram d
     = (Recipes.rd_totalCost d / Recipes.rd_totalYieldWeight d)%float.
Proof.
  intros Ho Hw.
  destruct (Recipes.invalid st (JS.parseFloat (Recipes.totalYield st))) eqn:Hv.
  - rewrite (handleSubmit_invalid _ Hv) in Ho. injection Ho as <-. discriminate.
  - rewrite (handleSubmit_valid _ Hv) in Ho.
    destruct (mapArray _ _) as [rows|e]; simpl in Ho; [|discriminate].
    injection Ho as <-. rewrite save_written in Hw. injection Hw as <-.
    simpl. repeat split; reflexivity.
Qed.

(** ** Results *)

(** C4: [getConversionFactor] is total over the unit values: it is 1000 for
    kilogram and liter, 1 for gram and unit (count), 1 for every value that
    is not one of the four units, and strictly positive at every value. *)
Theorem conversion_factor_total :
  getConversionFactor Unit.KG = 1000%float
  /\ getConversionFactor Unit.LT = 1000%float
  /\ getConversionFactor Unit.GR = 1%float
  /\ getConversionFactor Unit.UN = 1%float
  /\ (forall u : Unit.t, ~ In u Unit.values -> getConversionFactor u = 1%float)
  /\ (forall u : Unit.t, PrimFloat.ltb 0 (getConversionFactor u) = true)
  /\ (forall u : Unit.t, getConversionFactor u = Spec.conversionFactor u).
Proof.
  repeat split; try reflexivity.
  - intros u Hu. unfold getConversionFactor.
    destruct (String.eqb_spec u Unit.KG) as [->|_]; [elim Hu; simpl; tauto|].
    destruct (String.eqb_spec u Unit.LT) as [->|_]; [elim Hu; simpl; tauto|].
    destruct (String.eqb u Unit.GR), (String.eqb u Unit.UN); reflexivity.
  - intros u. unfold getConversionFactor.
    destruct (String.eqb u Unit.KG); [reflexivity|].
    destruct (String.eqb u Unit.LT); [reflexivity|].
    destruct (String.eqb u Unit.GR), (String.eqb u Unit.UN); reflexivity.
  - apply getConversionFactor_table.
Qed.

(** A value outside the enumeration, as corrupt stored data would hold. *)
Lemma conversion_factor_unknown_unit :
  ~ In "Oz" Unit.values /\ getConversionFactor "Oz" = 1%float
  /\ PrimFloat.ltb 0 (getConversionFactor "") = true.
Proof.
  pose proof conversion_factor_total as (_ & _ & _ & _ & Hdef & Hpos & _).
  assert (Hout : ~ In "Oz" Unit.values) by (simpl; intuition discriminate).
  split; [exact Hout|]. split; [exact (Hdef "Oz" Hout) | exact (Hpos "")].
Defined.

(** C1: a usage whose ingredient resolves (unit [u], price [p]) and whose
    quantity parses to a number [q] adds exactly [(p / conversionFactor u) * q]
    to the running total, and its saved row carries the same cost. *)
Theorem usage_cost_contribution (st : Recipes.state)
    (pre : list Recipes.LocalRecipeIngredient.t)
    (item : Recipes.LocalRecipeIngredient.t) (ing : Ingredient.t) :
  let q := JS.parseFloat (Recipes.LocalRecipeIngredient.quantityUsed item) in
  let cost := (Ingredient.pricePerUnit ing / getConversionFactor (Ingredient.unit ing) * q)%float in
  Recipes.ingredientsList st = pre ++ [item] ->
  Recipes.findIngredient (Recipes.availableIngredients st)
    (Recipes.LocalRecipeIngredient.ingredientId item) = Some ing ->
  JS.isNaN q = false ->
  cost = Spec.usageCost ing q
  /\ (forall total,
        Recipes.addUsage (Recipes.availableIngredients st) item total
        = Normal (total + cost)%float)
  /\ (exists before,
        Recipes.calculateTotalCost (setIngredientsList st pre) = Normal before
        /\ Recipes.calculateTotalCost st = Normal (before + cost)%float)
  /\ Recipes.finalIngredient (Recipes.availableIngredients st) item
     = Normal {| RecipeIngredient.ingredientId := Recipes.LocalRecipeIngredient.ingredientId item;
                 RecipeIngredient.quantityUsed := q;
                 RecipeIngredient.calculatedCost := cost |}.
Proof.
  intros q cost Hl Hf Hq.
  assert (Hcost : cost = Spec.usageCost ing q).
  { unfold cost, Spec.usageCost. now rewrite getConversionFactor_table. }
  assert (Hc : Spec.counts (Recipes.availableIngredients st) item = true).
  { unfold Spec.counts, Spec.resolve. unfold Recipes.findIngredient in Hf.
    rewrite Hf. fold q. now rewrite Hq. }
  assert (Hco : Spec.costOf (Recipes.availableIngredients st) item = cost).
  { unfold Spec.costOf, Spec.resolve. unfold Recipes.findIngredient in Hf.
    rewrite Hf. now rewrite Hcost. }
  split; [exact Hcost|]. split; [|split].
  - intros total. now rewrite (addUsage_counts _ _ _ Hc), Hco.
  - exists (Spec.totalCost (Recipes.availableIngredients st) pre). split.
    + now rewrite calculateTotalCost_sum.
    + unfold Recipes.calculateTotalCost. rewrite Hl, forEach_app, forEach_addUsage.
      simpl. rewrite (addUsage_counts _ _ _ Hc), Hco. reflexivity.
  - rewrite (finalIngredient_resolved _ _ _ Hf). fold q. now rewrite <- Hcost.
Qed.

(** Scenarios A and D: 200 g of an ingredient at 10000 per kg cost 2000;
    3 units of an ingredient at 5 per unit cost 15. *)
Lemma usage_cost_scenarios_A_D :
  (Recipes.findIngredient [almondFlour; egg] "i1" = Some almondFlour
   /\ JS.parseFloat "200" = 200%float
   /\ Spec.usageCost almondFlour 200%float = 2000%float
   /\ Recipes.calculateTotalCost (form "Torta" [usage "i1" "200"] "1000") = Normal 2000%float)
  /\ (Recipes.findIngredient [almondFlour; egg] "i2" = Some egg
      /\ JS.parseFloat "3" = 3%float
      /\ Spec.usageCost egg 3%float = 15%float
      /\ Recipes.calculateTotalCost (form "Huevos" [usage "i2" "3"] "3") = Normal 15%float).
Proof.
  split.
  - destruct (usage_cost_contribution (form "Torta" [usage "i1" "200"] "1000")
                [] (usage "i1" "200") almondFlour eq_refl eq_refl eq_refl)
      as (Hcost & _ & (before & Hb & Ht) & _).
    injection Hb as <-.
    exact (conj eq_refl (conj eq_refl (conj (eq_sym Hcost) Ht))).
  - destruct (usage_cost_contribution (form "Huevos" [usage "i2" "3"] "3")
                [] (usage "i2" "3") egg eq_refl eq_refl eq_refl)
      as (Hcost & _ & (before & Hb & Ht) & _).
    injection Hb as <-.
    exact (conj eq_refl (conj eq_refl (conj (eq_sym Hcost) Ht))).
Defined.

(** C5: [calculateTotalCost] never throws, and its total is the sum over
    only the usages whose ingredient resolves and whose quantity parses: a
    usage with an unresolved ingredient id or a non-numeric quantity is left
    out, so the total is the same as without it. *)
Theorem unusable_usage_excluded (st : Recipes.state) :
  Recipes.calculateTotalCost st
  = Normal (Spec.sum (map (Spec.costOf (Recipes.availableIngredients st))
                        (filter (Spec.counts (Recipes.availableIngredients st))
                                (Recipes.ingredientsList st))))
  /\ (forall pre item post,
        Recipes.ingredientsList st = pre ++ item :: post ->
        Recipes.findIngredient (Recipes.availableIngredients st)
          (Recipes.LocalRecipeIngredient.ingredientId item) = None
        \/ JS.isNaN (JS.parseFloat (Recipes.LocalRecipeIngredient.quantityUsed item)) = true ->
        Spec.counts (Recipes.availableIngredients st) item = false
        /\ (forall total, Recipes.addUsage (Recipes.availableIngredients st) item total
                          = Normal total)
        /\ Recipes.calculateTotalCost st
           = Recipes.calculateTotalCost (setIngredientsList st (pre ++ post))).
Proof.
  split; [apply calculateTotalCost_sum|].
  intros pre item post Hl Hbad.
  assert (Hc : Spec.counts (Recipes.availableIngredients st) item = false).
  { unfold Spec.counts, Spec.resolve. unfold Recipes.findIngredient in Hbad.
    destruct Hbad as [-> | ->]; [reflexivity|].
    now destruct (find _ _). }
  split; [exact Hc|]. split.
  - intros total. now apply addUsage_skips.
  - rewrite !calculateTotalCost_sum. unfold Spec.totalCost. simpl.
    now rewrite Hl, (filter_counts_app_skip _ _ _ _ Hc).
Qed.

(** A deleted ingredient and two non-numeric quantities among good rows. *)
Lemma unusable_usage_excluded_run :
  Recipes.calculateTotalCost
    (form "Torta" [usage "i1" "200"; usage "gone" "3"; usage "i1" "abc";
                   usage "i2" ""; usage "i2" "3"] "1000")
  = Normal 2015%float
  /\ Recipes.calculateTotalCost
       (form "Torta" [usage "i1" "200"; usage "gone" "3"; usage "i2" "3"] "1000")
     = Recipes.calculateTotalCost (form "Torta" [usage "i1" "200"; usage "i2" "3"] "1000").
Proof.
  split.
  - exact (proj1 (unusable_usage_excluded
             (form "Torta" [usage "i1" "200"; usage "gone" "3"; usage "i1" "abc";
                            usage "i2" ""; usage "i2" "3"] "1000"))).
  - exact (proj2 (proj2 (proj2 (unusable_usage_excluded
             (form "Torta" [usage "i1" "200"; usage "gone" "3"; usage "i2" "3"] "1000"))
             [usage "i1" "200"] (usage "gone" "3") [usage "i2" "3"]
             eq_refl (or_introl eq_refl)))).
Defined.

(** C2: for a non-empty name, a non-empty usage list and a positive yield
    weight, the costing computes [totalCost] as the sum of the usage costs
    and [costPerGram] as [totalCost] divided by the yield weight, and a
    submit that completes writes a record with exactly these two. *)
Theorem recipe_costing (st : Recipes.state) :
  let yieldWeight := JS.parseFloat (Recipes.totalYield st) in
  let costs := Spec.costRecipe (Recipes.availableIngredients st)
                 (Recipes.ingredientsList st) yieldWeight in
  Recipes.recipeName st <> "" ->
  Recipes.ingredientsList st <> [] ->
  PrimFloat.ltb 0 yieldWeight = true ->
  Recipes.calculateTotalCost st = Normal (fst costs)
  /\ snd costs = (fst costs / yieldWeight)%float
  /\ (forall o, Recipes.handleSubmit st = Normal o ->
        exists d, written o = Some d
                  /\ Recipes.rd_totalCost d = fst costs
                  /\ Recipes.rd_costPerGram d = snd costs
                  /\ Recipes.rd_totalYieldWeight d = yieldWeight).
Proof.
  intros yieldWeight costs Hn Hl Hy.
  assert (Hv : Recipes.invalid st yieldWeight = false) by (now apply valid_spec).
  split; [apply calculateTotalCost_sum|]. split; [reflexivity|].
  intros o Ho. rewrite (handleSubmit_valid _ Hv) in Ho.
  destruct (mapArray _ _) as [rows|e]; simpl in Ho; [|discriminate].
  injection Ho as <-. eexists. split; [apply save_written|].
  simpl. repeat split; reflexivity.
Qed.

(** Scenario B: two usages of cost 2000 each and a yield of 1000 give a
    total cost of 4000 and a cost per gram of 4. *)
Lemma recipe_costing_scenario_B :
  PrimFloat.ltb 0 (JS.parseFloat "1000") = true
  /\ Recipes.calculateTotalCost
       (form "Torta" [usage "i1" "200"; usage "i1" "200"] "1000") = Normal 4000%float
  /\ exists d,
       Recipes.handleSubmit (form "Torta" [usage "i1" "200"; usage "i1" "200"] "1000")
       = Normal (Recipes.AddDoc d)
       /\ map RecipeIngredient.calculatedCost (Recipes.rd_ingredients d)
          = [2000%float; 2000%float]
       /\ Recipes.rd_totalCost d = 4000%float
       /\ Recipes.rd_costPerGram d = 4%float.
Proof.
  assert (Hn : "Torta" <> "") by discriminate.
  assert (Hl : [usage "i1" "200"; usage "i1" "200"] <> []) by discriminate.
  destruct (recipe_costing (form "Torta" [usage "i1" "200"; usage "i1" "200"] "1000")
              Hn Hl eq_refl) as (Ht & _ & Hw).
  split; [reflexivity|]. split; [exact Ht|].
  destruct (Recipes.handleSubmit (form "Torta" [usage "i1" "200"; usage "i1" "200"] "1000"))
    as [[|id d|d]|e] eqn:Hs; try discriminate Hs.
  exists d. destruct (Hw _ eq_refl) as (d' & Hd & Hc & Hg & _).
  injection Hd as <-. injection Hs as <-.
  exact (conj eq_refl (conj eq_refl (conj Hc Hg))).
Defined.

(** C3: with a recipe of cost per unit [c] selected and a quantity sold that
    parses to a number [q] (any number but [-0], which [|| 0] turns into
    [0]), the calculator computes [realCost = c * q],
    [suggestedPrice = 3 * realCost] and [profit = suggestedPrice - realCost]. *)
Theorem sale_pricing (st : Calculator.state) (r : Recipe.t) :
  let c := Recipe.costPerGram r in
  let q := JS.parseFloat (Calculator.sellWeight st) in
  Calculator.selectedRecipe st = Some r ->
  JS.isNaN q = false ->
  q <> (-0)%float ->
  Calculator.realCost st = (c * q)%float
  /\ Calculator.suggestedPrice st = (3 * Calculator.realCost st)%float
  /\ Calculator.profit st = (Calculator.suggestedPrice st - Calculator.realCost st)%float
  /\ Spec.priceRecipe c q
     = {| Spec.realCost := Calculator.realCost st;
          Spec.suggestedPrice := Calculator.suggestedPrice st;
          Spec.profit := Calculator.profit st |}.
Proof.
  intros c q Hr Hnan Hneg.
  assert (Hreal : Calculator.realCost st = (c * q)%float).
  { unfold Calculator.realCost, Calculator.costPerGram, Calculator.weight.
    fold q. now rewrite Hr, (or_zero_id q Hnan Hneg). }
  split; [exact Hreal|]. split; [apply mul_comm|]. split; [reflexivity|].
  unfold Spec.priceRecipe, Calculator.profit, Calculator.suggestedPrice, Spec.MARKUP.
  now rewrite Hreal.
Qed.

(** Scenario C: 100 sold at a cost per unit of 4. *)
Lemma sale_pricing_scenario_C :
  Calculator.selectedRecipe (sale "r1" "100") = Some cake
  /\ JS.parseFloat "100" = 100%float
  /\ Calculator.realCost (sale "r1" "100") = 400%float
  /\ Calculator.suggestedPrice (sale "r1" "100") = 1200%float
  /\ Calculator.profit (sale "r1" "100") = 800%float.
Proof.
  assert (Hneg : JS.parseFloat "100" <> (-0)%float).
  { intros H. apply (f_equal (PrimFloat.ltb 0)) in H. discriminate H. }
  destruct (sale_pricing (sale "r1" "100") cake eq_refl eq_refl Hneg) as (Hr & Hs & Hp & _).
  refine (conj eq_refl (conj eq_refl (conj Hr (conj _ _)))).
  - rewrite Hs. reflexivity.
  - rewrite Hp. reflexivity.
Defined.

(** ** Saving with rows that do not count *)

Lemma save_not_alert (editingId : option string) (d : Recipes.recipeData) :
  Recipes.save editingId d <> Recipes.Alert.
Proof.
  intros H. pose proof (save_written editingId d) as Hw. rewrite H in Hw. discriminate.
Qed.

(** C6: a submit whose usage list references an ingredient id that no longer
    resolves. The live total skips the row, but building the rows reads
    [ing.unit] on [undefined]: the submit throws and nothing is written. *)
Theorem unresolved_usage_save_throws :
  Recipes.findIngredient [almondFlour; egg] "gone" = None
  /\ Recipes.invalid (form "Torta" [usage "i1" "200"; usage "gone" "200"] "1000")
       (JS.parseFloat "1000") = false
  /\ Recipes.calculateTotalCost (form "Torta" [usage "i1" "200"; usage "gone" "200"] "1000")
     = Normal 2000%float
  /\ Recipes.finalIngredient [almondFlour; egg] (usage "gone" "200") = Throw TypeError
  /\ Recipes.handleSubmit (form "Torta" [usage "i1" "200"; usage "gone" "200"] "1000")
     = Throw TypeError.
Proof.
  repeat split; reflexivity.
Qed.

(** C7, as amended: the submit stops at validation, writing nothing,
    exactly when the recipe name is empty, or the usage list is empty, or
    the yield does not parse to a number greater than 0; [Infinity] is such
    a number. Whatever is written passed validation. *)
Theorem save_validation (st : Recipes.state) :
  let yieldWeight := JS.parseFloat (Recipes.totalYield st) in
  (Recipes.handleSubmit st = Normal Recipes.Alert <->
     (Recipes.recipeName st = "" \/ Recipes.ingredientsList st = []
      \/ PrimFloat.ltb 0 yieldWeight = false))
  /\ (forall o d, Recipes.handleSubmit st = Normal o -> written o = Some d ->
        Recipes.recipeName st <> "" /\ Recipes.ingredientsList st <> []
        /\ PrimFloat.ltb 0 yieldWeight = true).
Proof.
  intros yieldWeight. split.
  - assert (Hlt : PrimFloat.ltb 0 yieldWeight = false <->
                  (JS.isNaN yieldWeight = true \/ PrimFloat.leb yieldWeight 0 = true)).
    { pose proof (positive_spec yieldWeight) as Hp.
      destruct (PrimFloat.ltb 0 yieldWeight), (JS.isNaN yieldWeight),
        (PrimFloat.leb yieldWeight 0); intuition congruence. }
    rewrite Hlt, <- invalid_spec. fold yieldWeight. split.
    + intros Ha. destruct (Recipes.invalid st yieldWeight) eqn:Hv; [reflexivity|].
      rewrite (handleSubmit_valid _ Hv) in Ha.
      destruct (mapArray _ _) as [rows|e]; simpl in Ha; [|discriminate].
      injection Ha as Ha. now apply save_not_alert in Ha.
    + apply handleSubmit_invalid.
  - intros o d Ho Hw.
    destruct (handleSubmit_written _ _ _ Ho Hw) as (Hv & _).
    now apply valid_spec.
Qed.

(** A yield of [Infinity] is not a finite number, yet the submit goes
    through and writes a record whose cost per gram is 0. *)
Lemma infinite_yield_accepted :
  Recipes.recipeName (form "Torta" [usage "i1" "200"] "Infinity") = "Torta"
  /\ JS.parseFloat "Infinity" = PrimFloat.infinity
  /\ JS.isFinite (JS.parseFloat "Infinity") = false
  /\ Recipes.handleSubmit (form "Torta" [usage "i1" "200"] "Infinity")
     = Normal (Recipes.AddDoc
         {| Recipes.rd_userId := "u1";
            Recipes.rd_name := "Torta";
            Recipes.rd_ingredients :=
              [ {| RecipeIngredient.ingredientId := "i1";
                   RecipeIngredient.quantityUsed := 200%float;
                   RecipeIngredient.calculatedCost := 2000%float |} ];
            Recipes.rd_totalYieldWeight := PrimFloat.infinity;
            Recipes.rd_totalCost := 2000%float;
            Recipes.rd_costPerGram := 0%float |}).
Proof.
  repeat split; reflexivity.
Qed.

(** The validation outcomes on sample forms. *)
Lemma save_validation_runs :
  Recipes.handleSubmit (form "" [usage "i1" "200"] "1000") = Normal Recipes.Alert
  /\ Recipes.handleSubmit (form "Torta" [] "1000") = Normal Recipes.Alert
  /\ Recipes.handleSubmit (form "Torta" [usage "i1" "200"] "abc") = Normal Recipes.Alert
  /\ Recipes.handleSubmit (form "Torta" [usage "i1" "200"] "0") = Normal Recipes.Alert
  /\ Recipes.handleSubmit (form "Torta" [usage "i1" "200"] "-3") = Normal Recipes.Alert.
Proof.
  pose proof (fun st => proj2 (proj1 (save_validation st))) as H.
  repeat apply conj; apply H; simpl; auto.
Defined.

(** C8: a submit where a row's quantity is not numeric. The total leaves the
    row out, but the row is saved with a [NaN] cost: the written record has
    a total of 2000 while its rows' costs sum to [NaN]. *)
Theorem non_numeric_row_breaks_snapshot :
  JS.isNaN (JS.parseFloat "abc") = true
  /\ exists d,
       Recipes.handleSubmit (form "Torta" [usage "i1" "200"; usage "i1" "abc"] "1000")
       = Normal (Recipes.AddDoc d)
       /\ Recipes.rd_totalCost d = 2000%float
       /\ map RecipeIngredient.calculatedCost (Recipes.rd_ingredients d)
          = [2000%float; PrimFloat.nan]
       /\ Spec.sum (map RecipeIngredient.calculatedCost (Recipes.rd_ingredients d))
          = PrimFloat.nan
       /\ PrimFloat.eqb (Recipes.rd_totalCost d)
            (Spec.sum (map RecipeIngredient.calculatedCost (Recipes.rd_ingredients d)))
          = false.
Proof.
  split; [reflexivity|]. eexists. split; [reflexivity|].
  repeat split; reflexivity.
Qed.

(** ** The ingredient form *)

Lemma ingredient_save_written (editingId : option string) (d : Ingredients.ingredientData) :
  writtenIngredient (Ingredients.save editingId d) = Some d.
Proof.
  destruct editingId as [id|]; simpl; [|reflexivity].
  destruct (JS.emptyb id); reflexivity.
Qed.

(** What the form writes, and when. *)
Lemma ingredient_written (st : Ingredients.state) (d : Ingredients.ingredientData) :
  writtenIngredient (Ingredients.handleSubmit st) = Some d <->
  (JS.trim (Ingredients.name st) <> "" /\ Ingredients.price st <> ""
   /\ Ingredients.exists_ (Ingredients.ingredients st) (JS.trim (Ingredients.name st))
        (Ingredients.editingId st) = false
   /\ d = {| Ingredients.d_name := JS.trim (Ingredients.name st);
             Ingredients.d_unit := Ingredients.unit st;
             Ingredients.d_pricePerUnit := JS.parseFloat (Ingredients.price st);
             Ingredients.d_userId := Ingredients.userId st |}).
Proof.
  unfold Ingredients.handleSubmit.
  destruct (JS.emptyb (JS.trim (Ingredients.name st))) eqn:Hn; simpl.
  { apply emptyb_true in Hn. split; [discriminate | intros (H & _); contradiction]. }
  destruct (JS.emptyb (Ingredients.price st)) eqn:Hp; simpl.
  { apply emptyb_true in Hp. split; [discriminate | intros (_ & H & _); contradiction]. }
  assert (Hn' : JS.trim (Ingredients.name st) <> "").
  { intros H. apply emptyb_true in H. congruence. }
  assert (Hp' : Ingredients.price st <> "").
  { intros H. apply emptyb_true in H. congruence. }
  destruct (Ingredients.exists_ _ _ _); simpl.
  { split; [discriminate | intros (_ & _ & H & _); discriminate]. }
  rewrite ingredient_save_written. split.
  - intros [= <-]. auto.
  - intros (_ & _ & _ & ->). reflexivity.
Qed.

(** C9, as amended: the only check the form makes on the price input is
    that it is not empty. An empty price writes nothing; any other price,
    whatever its sign and whether numeric or not, is written as
    [parseFloat] of the input as soon as the name passes its own checks; so
    exchanging one non-empty price for another never turns a write into a
    refusal, and every written record has [pricePerUnit] equal to
    [parseFloat] of the input. *)
Theorem stored_price_is_parsed_input (st : Ingredients.state) :
  (Ingredients.price st = "" -> Ingredients.handleSubmit st = Ingredients.Return)
  /\ (Ingredients.price st <> "" ->
      JS.trim (Ingredients.name st) <> "" ->
      Ingredients.exists_ (Ingredients.ingredients st) (JS.trim (Ingredients.name st))
        (Ingredients.editingId st) = false ->
      Ingredients.handleSubmit st
      = Ingredients.save (Ingredients.editingId st)
          {| Ingredients.d_name := JS.trim (Ingredients.name st);
             Ingredients.d_unit := Ingredients.unit st;
             Ingredients.d_pricePerUnit := JS.parseFloat (Ingredients.price st);
             Ingredients.d_userId := Ingredients.userId st |})
  /\ (forall d, writtenIngredient (Ingredients.handleSubmit st) = Some d ->
        Ingredients.price st <> ""
        /\ Ingredients.d_pricePerUnit d = JS.parseFloat (Ingredients.price st))
  /\ (forall p, Ingredients.price st <> "" -> p <> "" ->
        (writtenIngredient (Ingredients.handleSubmit st) = None <->
         writtenIngredient (Ingredients.handleSubmit (setPrice st p)) = None)).
Proof.
  split; [|split; [|split]].
  - intros Hp. unfold Ingredients.handleSubmit. rewrite Hp. simpl.
    now rewrite orb_true_r.
  - intros Hp Hn Hex. unfold Ingredients.handleSubmit. rewrite Hex.
    assert (H1 : JS.emptyb (JS.trim (Ingredients.name st)) = false).
    { apply not_true_iff_false. now rewrite emptyb_true. }
    assert (H2 : JS.emptyb (Ingredients.price st) = false).
    { apply not_true_iff_false. now rewrite emptyb_true. }
    now rewrite H1, H2.
  - intros d Hw. apply ingredient_written in Hw. destruct Hw as (_ & Hp & _ & ->).
    simpl. auto.
  - intros p Hp Hp'. unfold Ingredients.handleSubmit. simpl.
    assert (H1 : JS.emptyb (Ingredients.price st) = false).
    { apply not_true_iff_false. now rewrite emptyb_true. }
    assert (H2 : JS.emptyb p = false).
    { apply not_true_iff_false. now rewrite emptyb_true. }
    rewrite H1, H2.
    destruct (JS.emptyb (JS.trim (Ingredients.name st))); simpl; [tauto|].
    destruct (Ingredients.exists_ _ _ _); simpl; [tauto|].
    rewrite !ingredient_save_written. split; discriminate.
Qed.

(** A price of 12.50 is stored as parsed, and so would any other text be in
    its place. *)
Lemma stored_price_run :
  Ingredients.handleSubmit (ingredientForm "Stevia" "12.50")
  = Ingredients.AddDoc {| Ingredients.d_name := "Stevia";
                          Ingredients.d_unit := Unit.KG;
                          Ingredients.d_pricePerUnit := 12.5%float;
                          Ingredients.d_userId := "u1" |}
  /\ (writtenIngredient (Ingredients.handleSubmit (ingredientForm "Stevia" "12.50")) = None <->
      writtenIngredient (Ingredients.handleSubmit (ingredientForm "Stevia" "-0.5e1")) = None).
Proof.
  assert (Hp : Ingredients.price (ingredientForm "Stevia" "12.50") <> "") by discriminate.
  assert (Hn : JS.trim (Ingredients.name (ingredientForm "Stevia" "12.50")) <> "")
    by discriminate.
  assert (Hq : "-0.5e1" <> "") by discriminate.
  destruct (stored_price_is_parsed_input (ingredientForm "Stevia" "12.50"))
    as (_ & Hw & _ & Hany).
  split; [exact (Hw Hp Hn eq_refl) | exact (Hany "-0.5e1" Hp Hq)].
Defined.

(** A negative price passes the checks of the form and is written, and so is
    an input that has no numeric prefix. *)
Lemma negative_price_persisted :
  Ingredients.handleSubmit (ingredientForm "Stevia" "-5")
  = Ingredients.AddDoc {| Ingredients.d_name := "Stevia";
                          Ingredients.d_unit := Unit.KG;
                          Ingredients.d_pricePerUnit := (-5)%float;
                          Ingredients.d_userId := "u1" |}
  /\ PrimFloat.ltb (-5)%float 0 = true
  /\ PrimFloat.leb 0 (-5)%float = false
  /\ (exists d, Ingredients.handleSubmit (ingredientForm "Stevia" "gratis")
                = Ingredients.AddDoc d
                /\ PrimFloat.leb 0 (Ingredients.d_pricePerUnit d) = false).
Proof.
  split; [reflexivity|]. split; [reflexivity|]. split; [reflexivity|].
  eexists. split; reflexivity.
Qed.

(** C10: the name is trimmed before the duplicate check and before the
    write. The written name is the trimmed input, which is not empty and
    neither starts nor ends with white space; a name that is empty after
    trimming, such as one of white space only, writes nothing; and the
    outcome, duplicate check included, is the one of the trimmed name. *)
Theorem name_is_trimmed (st : Ingredients.state) :
  (forall d, writtenIngredient (Ingredients.handleSubmit st) = Some d ->
     Ingredients.d_name d = JS.trim (Ingredients.name st)
     /\ Ingredients.d_name d <> ""
     /\ notWhiteSpace (firstChar (Ingredients.d_name d))
     /\ notWhiteSpace (lastChar (Ingredients.d_name d)))
  /\ (JS.trim (Ingredients.name st) = "" -> Ingredients.handleSubmit st = Ingredients.Return)
  /\ (allWhiteSpace (Ingredients.name st) = true ->
      Ingredients.handleSubmit st = Ingredients.Return)
  /\ (Ingredients.handleSubmit st = Ingredients.DuplicateError <->
      JS.trim (Ingredients.name st) <> "" /\ Ingredients.price st <> ""
      /\ Ingredients.exists_ (Ingredients.ingredients st) (JS.trim (Ingredients.name st))
           (Ingredients.editingId st) = true)
  /\ Ingredients.handleSubmit st
     = Ingredients.handleSubmit (setName st (JS.trim (Ingredients.name st))).
Proof.
  assert (Hempty : JS.trim (Ingredients.name st) = "" ->
                   Ingredients.handleSubmit st = Ingredients.Return).
  { intros H. unfold Ingredients.handleSubmit. now rewrite H. }
  split; [|split; [exact Hempty|split; [|split]]].
  - intros d Hw. apply ingredient_written in Hw. destruct Hw as (Hn & _ & _ & ->).
    simpl. split; [reflexivity|]. split; [exact Hn|]. split.
    + apply trimEnd_head, trimStart_head.
    + apply trimEnd_last.
  - intros H. apply Hempty. now apply trim_blank.
  - unfold Ingredients.handleSubmit.
    destruct (JS.emptyb (JS.trim (Ingredients.name st))) eqn:Hn; simpl.
    { apply emptyb_true in Hn. split; [discriminate | intros (H & _); contradiction]. }
    destruct (JS.emptyb (Ingredients.price st)) eqn:Hp; simpl.
    { apply emptyb_true in Hp. split; [discriminate | intros (_ & H & _); contradiction]. }
    destruct (Ingredients.exists_ _ _ _); simpl.
    + split; [|reflexivity]. intros _.
      repeat split; try reflexivity; intros H; apply emptyb_true in H; congruence.
    + split; [|intros (_ & _ & H); discriminate].
      intros H. pose proof (ingredient_save_written (Ingredients.editingId st)
        {| Ingredients.d_name := JS.trim (Ingredients.name st);
           Ingredients.d_unit := Ingredients.unit st;
           Ingredients.d_pricePerUnit := JS.parseFloat (Ingredients.price st);
           Ingredients.d_userId := Ingredients.userId st |}) as Hw.
      rewrite H in Hw. discriminate.
  - unfold Ingredients.handleSubmit. simpl. now rewrite trim_idempotent.
Qed.

(** The name ["  Stevia  "] is written as ["Stevia"]; ["  HUEVO "] is refused
    as a duplicate of ["Huevo"]; a name of blanks writes nothing. *)
Lemma name_is_trimmed_runs :
  Ingredients.handleSubmit (ingredientForm "  Stevia  " "12.50")
  = Ingredients.AddDoc {| Ingredients.d_name := "Stevia";
                          Ingredients.d_unit := Unit.KG;
                          Ingredients.d_pricePerUnit := 12.5%float;
                          Ingredients.d_userId := "u1" |}
  /\ Ingredients.handleSubmit (ingredientForm "  HUEVO " "3") = Ingredients.DuplicateError
  /\ allWhiteSpace "   " = true
  /\ Ingredients.handleSubmit (ingredientForm "   " "12.50") = Ingredients.Return.
Proof.
  split; [reflexivity|]. split.
  - apply (proj1 (proj2 (proj2 (proj2 (name_is_trimmed (ingredientForm "  HUEVO " "3")))))).
    split; [discriminate|]. split; [discriminate | reflexivity].
  - split; [reflexivity|].
    exact (proj1 (proj2 (proj2 (name_is_trimmed (ingredientForm "   " "12.50")))) eq_refl).
Defined.

(** ** Further results on the recipe submit *)

(** X1: when validation passes and every usage resolves and parses, the submit
    completes and writes one row per usage; the written total is the very
    number obtained by summing the rows' costs in order, and the written
    cost per gram the very number [totalCost / totalYieldWeight]. The
    invariant of section 3, stated with [==], therefore holds exactly when
    these two numbers are not [NaN] (costs that cancel at infinity give
    [NaN], which is equal to nothing). *)
Theorem snapshot_invariant_when_all_count (st : Recipes.state) :
  Recipes.invalid st (JS.parseFloat (Recipes.totalYield st)) = false ->
  forallb (Spec.counts (Recipes.availableIngredients st)) (Recipes.ingredientsList st) = true ->
  exists d,
    Recipes.handleSubmit st = Normal (Recipes.save (Recipes.editingId st) d)
    /\ length (Recipes.rd_ingredients d) = length (Recipes.ingredientsList st)
    /\ Recipes.rd_totalCost d
       = Spec.sum (map RecipeIngredient.calculatedCost (Recipes.rd_ingredients d))
    /\ Recipes.rd_costPerGram d
       = (Recipes.rd_totalCost d / Recipes.rd_totalYieldWeight d)%float
    /\ (Spec.snapshotInvariant d <->
        JS.isNaN (Recipes.rd_totalCost d) = false
        /\ JS.isNaN (Recipes.rd_costPerGram d) = false).
Proof.
  intros Hv Hall. rewrite forallb_forall in Hall.
  set (avail := Recipes.availableIngredients st) in *.
  set (row := fun item =>
         {| RecipeIngredient.ingredientId := Recipes.LocalRecipeIngredient.ingredientId item;
            RecipeIngredient.quantityUsed :=
              JS.parseFloat (Recipes.LocalRecipeIngredient.quantityUsed item);
            RecipeIngredient.calculatedCost := Spec.costOf avail item |}).
  assert (Hrows : mapArray (Recipes.finalIngredient avail) (Recipes.ingredientsList st)
                  = Normal (map row (Recipes.ingredientsList st))).
  { apply mapArray_normal. intros item Hin. specialize (Hall item Hin).
    unfold Spec.counts, Spec.resolve in Hall. unfold row, Spec.costOf, Spec.resolve.
    destruct (find _ avail) as [ing|] eqn:Hf; [|discriminate].
    now apply finalIngredient_resolved. }
  rewrite (handleSubmit_valid _ Hv). fold avail. rewrite Hrows. simpl.
  eexists. split; [reflexivity|]. split; [apply length_map|]. simpl.
  assert (Hsum : Spec.totalCost avail (Recipes.ingredientsList st)
                 = Spec.sum (map RecipeIngredient.calculatedCost
                               (map row (Recipes.ingredientsList st)))).
  { unfold Spec.totalCost. rewrite map_map. simpl. f_equal. f_equal.
    clear - Hall. induction (Recipes.ingredientsList st) as [|item l IH]; [reflexivity|].
    simpl. rewrite (Hall item (or_introl eq_refl)). f_equal.
    apply IH. intros x Hx. apply Hall. now right. }
  split; [exact Hsum|]. split; [reflexivity|].
  unfold Spec.snapshotInvariant. simpl.
  rewrite (eqb_same _ _ Hsum), (eqb_same _ _ eq_refl), !negb_true_iff. tauto.
Qed.

(** A record that satisfies the invariant, and one whose costs cancel at
    infinity: its total and its cost per gram are [NaN]. *)
Lemma snapshot_invariant_run :
  (exists d,
     Recipes.handleSubmit (form "Torta" [usage "i1" "200"; usage "i2" "3"] "1000")
     = Normal (Recipes.AddDoc d)
     /\ length (Recipes.rd_ingredients d) = 2%nat
     /\ Recipes.rd_totalCost d = 2015%float
     /\ Spec.snapshotInvariant d)
  /\ (exists d,
        Recipes.handleSubmit overflowForm = Normal (Recipes.AddDoc d)
        /\ map RecipeIngredient.calculatedCost (Recipes.rd_ingredients d)
           = [PrimFloat.infinity; PrimFloat.neg_infinity]
        /\ JS.isNaN (Recipes.rd_totalCost d) = true
        /\ PrimFloat.eqb (Recipes.rd_totalCost d)
             (Spec.sum (map RecipeIngredient.calculatedCost (Recipes.rd_ingredients d)))
           = false).
Proof.
  split.
  - destruct (snapshot_invariant_when_all_count
                (form "Torta" [usage "i1" "200"; usage "i2" "3"] "1000") eq_refl eq_refl)
      as (d & Hs & Hlen & _ & _ & Hinv).
    exists d. split; [exact Hs|]. split; [exact Hlen|].
    assert (Hd := Hs). cbv in Hd. injection Hd as <-.
    split; [reflexivity|]. apply Hinv. split; reflexivity.
  - destruct (snapshot_invariant_when_all_count overflowForm eq_refl eq_refl)
      as (d & Hs & _).
    exists d. split; [exact Hs|].
    assert (Hd := Hs). cbv in Hd. injection Hd as <-.
    repeat split; reflexivity.
Defined.

(** X2: when validation passes and some usage references an ingredient id
    that does not resolve, the submit throws: nothing is written. *)
Theorem unresolved_usage_always_throws (st : Recipes.state)
    (item : Recipes.LocalRecipeIngredient.t) :
  Recipes.invalid st (JS.parseFloat (Recipes.totalYield st)) = false ->
  In item (Recipes.ingredientsList st) ->
  Recipes.findIngredient (Recipes.availableIngredients st)
    (Recipes.LocalRecipeIngredient.ingredientId item) = None ->
  exists e, Recipes.handleSubmit st = Throw e.
Proof.
  intros Hv Hin Hf. rewrite (handleSubmit_valid _ Hv).
  destruct (mapArray_throws _ _ _ TypeError Hin (finalIngredient_unresolved _ _ Hf)) as [e He].
  rewrite He. now exists e.
Qed.

Lemma unresolved_usage_always_throws_run :
  exists e,
    Recipes.handleSubmit (form "Torta" [usage "i1" "200"; usage "gone" "200"] "1000") = Throw e.
Proof.
  exact (unresolved_usage_always_throws
           (form "Torta" [usage "i1" "200"; usage "gone" "200"] "1000")
           (usage "gone" "200") eq_refl (or_intror (or_introl eq_refl)) eq_refl).
Defined.

(** ** The result cards and the ticket of the sale calculator *)

Lemma not_truthy_not_positive (q : JS.number) :
  JS.truthy q = false -> PrimFloat.ltb 0 q = false.
Proof.
  unfold JS.truthy. intros Ht. apply negb_false_iff, orb_true_iff in Ht.
  destruct (PrimFloat.ltb 0 q) eqn:Hlt; [|reflexivity].
  apply positive_spec in Hlt. destruct Hlt as [Hnan Hle].
  destruct Ht as [Ht|Ht]; [congruence|].
  rewrite eqb_spec in Ht. rewrite leb_spec in Hle.
  unfold SFeqb in Ht. unfold SFleb in Hle.
  destruct (SFcompare (Prim2SF q) (Prim2SF 0)) as [[| |]|]; discriminate.
Qed.

(** The weight passes the test [weight > 0] exactly when the parsed input
    does, and then it is the parsed input. *)
Lemma weight_positive (st : Calculator.state) :
  PrimFloat.ltb 0 (Calculator.weight st)
  = PrimFloat.ltb 0 (JS.parseFloat (Calculator.sellWeight st))
  /\ (PrimFloat.ltb 0 (Calculator.weight st) = true ->
      Calculator.weight st = JS.parseFloat (Calculator.sellWeight st)).
Proof.
  unfold Calculator.weight, JS.or.
  destruct (JS.truthy (JS.parseFloat (Calculator.sellWeight st))) eqn:Ht.
  - split; [reflexivity | intros _; reflexivity].
  - rewrite (not_truthy_not_positive _ Ht). split; [reflexivity | discriminate].
Qed.

(** The product of [0] and a finite number greater than [0] is [0]. *)
Lemma zero_mul_finite (w : JS.number) :
  PrimFloat.ltb 0 w = true -> JS.isFinite w = true -> (0 * w)%float = 0%float.
Proof.
  intros Hpos Hfin. apply Prim2SF_inj. rewrite mul_spec.
  unfold JS.isFinite, JS.isNaN, PrimFloat.is_nan, PrimFloat.is_infinity in Hfin.
  rewrite ltb_spec in Hpos. rewrite !eqb_spec, abs_spec in Hfin.
  change (Prim2SF 0) with (S754_zero false) in *.
  change (Prim2SF infinity) with (S754_infinity false) in Hfin.
  unfold SFltb in Hpos. unfold SFeqb in Hfin.
  destruct (Prim2SF w) as [s|s| |s m e]; simpl in *; try discriminate.
  - destruct s; discriminate.
  - destruct s; [discriminate | reflexivity].
Qed.

(** X3: the result cards of the calculator are rendered exactly when a recipe
    id is selected and the quantity typed parses to a number greater than 0
    (so not for an empty, non-numeric, zero or negative quantity); when they
    are rendered, the weight used in the prices is the parsed quantity. *)
Theorem result_cards_shown (st : Calculator.state) :
  (CalculatorView.shown st = true <->
     Calculator.selectedRecipeId st <> ""
     /\ PrimFloat.ltb 0 (JS.parseFloat (Calculator.sellWeight st)) = true)
  /\ (CalculatorView.shown st = true ->
      Calculator.weight st = JS.parseFloat (Calculator.sellWeight st)
      /\ JS.isNaN (Calculator.weight st) = false
      /\ PrimFloat.leb (Calculator.weight st) 0 = false).
Proof.
  unfold CalculatorView.shown.
  destruct (weight_positive st) as [Heq Hw]. rewrite Heq. split.
  - rewrite andb_true_iff, negb_true_iff.
    assert (Hn : JS.emptyb (Calculator.selectedRecipeId st) = false <->
                 Calculator.selectedRecipeId st <> "").
    { rewrite <- not_true_iff_false. now rewrite emptyb_true. }
    now rewrite Hn.
  - intros Hs. apply andb_true_iff in Hs. destruct Hs as [_ Hp].
    rewrite <- Heq in Hp. split; [now apply Hw|]. now apply positive_spec.
Qed.

Lemma result_cards_shown_runs :
  CalculatorView.shown (sale "r1" "100") = true
  /\ Calculator.weight (sale "r1" "100") = 100%float
  /\ CalculatorView.shown (sale "r1" "") = false
  /\ CalculatorView.shown (sale "r1" "-3") = false
  /\ CalculatorView.shown (sale "" "100") = false.
Proof.
  assert (Hs : CalculatorView.shown (sale "r1" "100") = true) by reflexivity.
  split; [exact Hs|]. split.
  - exact (proj1 (proj2 (result_cards_shown (sale "r1" "100")) Hs)).
  - repeat split; reflexivity.
Defined.

(** X4: when the cards are rendered for a selected id that matches no loaded
    recipe (a recipe deleted meanwhile) and a finite quantity, the cost, the
    suggested price and the profit are all 0, and the ticket button draws
    nothing. *)
Theorem stale_selection_prices_zero (st : Calculator.state) :
  CalculatorView.shown st = true ->
  Calculator.selectedRecipe st = None ->
  JS.isFinite (JS.parseFloat (Calculator.sellWeight st)) = true ->
  Calculator.realCost st = 0%float
  /\ Calculator.suggestedPrice st = 0%float
  /\ Calculator.profit st = 0%float
  /\ CalculatorView.generateTicket st = None.
Proof.
  intros Hs Hr Hfin.
  destruct (proj2 (result_cards_shown st) Hs) as (Hw & _).
  apply (proj1 (result_cards_shown st)) in Hs. destruct Hs as [_ Hpos].
  assert (Hreal : Calculator.realCost st = 0%float).
  { unfold Calculator.realCost, Calculator.costPerGram.
    rewrite Hr, Hw. now apply zero_mul_finite. }
  unfold Calculator.profit, Calculator.suggestedPrice, CalculatorView.generateTicket.
  rewrite Hreal, Hr. repeat split; reflexivity.
Qed.

Lemma stale_selection_run :
  CalculatorView.shown (sale "deleted" "100") = true
  /\ Calculator.selectedRecipe (sale "deleted" "100") = None
  /\ Calculator.suggestedPrice (sale "deleted" "100") = 0%float
  /\ CalculatorView.generateTicket (sale "deleted" "100") = None.
Proof.
  destruct (stale_selection_prices_zero (sale "deleted" "100") eq_refl eq_refl eq_refl)
    as (_ & Hs & _ & Ht).
  exact (conj eq_refl (conj eq_refl (conj Hs Ht))).
Defined.

Lemma noWhiteSpace_app (s t : string) :
  noWhiteSpace (s ++ t) = noWhiteSpace s && noWhiteSpace t.
Proof.
  induction s as [|c r IH]; simpl; [reflexivity|].
  now rewrite IH, andb_assoc.
Qed.

Lemma string_length_app (s t : string) :
  String.length (s ++ t) = String.length s + String.length t.
Proof.
  induction s as [|c r IH]; simpl; [reflexivity | now rewrite IH].
Qed.

Lemma underscoreRuns_noWhiteSpace (inRun : bool) (s : string) :
  noWhiteSpace (CalculatorView.underscoreRuns inRun s) = true.
Proof.
  revert inRun. induction s as [|c r IH]; intros inRun; simpl; [reflexivity|].
  destruct (JS.isWhiteSpace c) eqn:Hc.
  - destruct inRun; [apply IH|]. simpl. apply IH.
  - simpl. rewrite Hc. simpl. apply IH.
Qed.

Lemma underscoreRuns_fixed (s : string) :
  noWhiteSpace s = true -> CalculatorView.underscoreRuns false s = s.
Proof.
  induction s as [|c r IH]; simpl; [reflexivity|].
  intros H. apply andb_true_iff in H. destruct H as [Hc Hr].
  apply negb_true_iff in Hc. rewrite Hc. now rewrite (IH Hr).
Qed.

Lemma underscoreRuns_length (inRun : bool) (s : string) :
  String.length (CalculatorView.underscoreRuns inRun s) <= String.length s.
Proof.
  revert inRun. induction s as [|c r IH]; intros inRun; simpl; [lia|].
  destruct (JS.isWhiteSpace c).
  - destruct inRun; simpl; [specialize (IH true); lia | specialize (IH true); lia].
  - simpl. specialize (IH false). lia.
Qed.

(** X5: a ticket is drawn exactly when the selected id matches a loaded
    recipe; the name of its file has no white space, is the recipe name
    itself followed by [_ticket.pdf] when that name has no white space, and
    is never longer than the recipe name plus that suffix. *)
Theorem ticket_file_name (st : Calculator.state) :
  (forall t, CalculatorView.generateTicket st = Some t ->
     exists r, Calculator.selectedRecipe st = Some r
       /\ CalculatorView.t_recipeName t = Recipe.name r
       /\ noWhiteSpace (CalculatorView.t_fileName t) = true
       /\ String.length (CalculatorView.t_fileName t) <= String.length (Recipe.name r) + 11
       /\ (noWhiteSpace (Recipe.name r) = true ->
           CalculatorView.t_fileName t = (Recipe.name r ++ "_ticket.pdf")%string))
  /\ (forall r, Calculator.selectedRecipe st = Some r ->
        exists t, CalculatorView.generateTicket st = Some t).
Proof.
  unfold CalculatorView.generateTicket. split.
  - intros t Ht. destruct (Calculator.selectedRecipe st) as [r|]; [|discriminate].
    injection Ht as <-. exists r. simpl. split; [reflexivity|]. split; [reflexivity|].
    unfold CalculatorView.replaceWhiteSpace. split; [|split].
    + rewrite noWhiteSpace_app, underscoreRuns_noWhiteSpace. reflexivity.
    + rewrite string_length_app. simpl.
      pose proof (underscoreRuns_length false (Recipe.name r)). lia.
    + intros Hn. now rewrite (underscoreRuns_fixed _ Hn).
  - intros r Hr. rewrite Hr. eexists. reflexivity.
Qed.

Lemma ticket_file_name_run :
  CalculatorView.replaceWhiteSpace "Torta  de 	Chocolate Keto" = "Torta_de_Chocolate_Keto"
  /\ exists t, CalculatorView.generateTicket (sale "r1" "100") = Some t
               /\ CalculatorView.t_fileName t = "Torta_ticket.pdf"
               /\ CalculatorView.t_suggestedPrice t = 1200%float.
Proof.
  split; [reflexivity|].
  destruct (proj2 (ticket_file_name (sale "r1" "100")) cake eq_refl) as [t Ht].
  exists t. split; [exact Ht|]. injection Ht as <-. split; reflexivity.
Defined.

(** ** Editing the rows of the recipe form *)

Lemma setIngredientsList_same (st : Recipes.state) :
  setIngredientsList st (Recipes.ingredientsList st) = st.
Proof.
  now destruct st.
Qed.

Lemma splice1_last {A} (l : list A) (x : A) : RecipesForm.splice1 (length l) (l ++ [x]) = l.
Proof.
  induction l as [|y l IH]; simpl; [reflexivity | now rewrite IH].
Qed.

Lemma splice1_nth {A} (index : nat) (l : list A) :
  (index < length l -> S (length (RecipesForm.splice1 index l)) = length l)
  /\ (length l <= index -> RecipesForm.splice1 index l = l)
  /\ (forall j, j < index ->
        nth_error (RecipesForm.splice1 index l) j = nth_error l j)
  /\ (forall j, index <= j ->
        nth_error (RecipesForm.splice1 index l) j = nth_error l (S j)).
Proof.
  revert index. induction l as [|x l IH]; intros index.
  - simpl. split; [lia|]. split; [reflexivity|].
    split; intros j _; now destruct j.
  - destruct index as [|i]; simpl.
    + split; [reflexivity|]. split; [lia|]. split; [lia | reflexivity].
    + destruct (IH i) as (Hlen & Hout & Hlow & Hhigh).
      split; [|split; [|split]].
      * intros H. rewrite Hlen; [reflexivity | lia].
      * intros H. rewrite Hout; [reflexivity | lia].
      * intros j Hj. destruct j as [|j]; [reflexivity|]. simpl. apply Hlow. lia.
      * intros j Hj. destruct j as [|j]; [lia|]. simpl. apply Hhigh. lia.
Qed.

(** A submit that passes validation throws when a usage does not resolve. *)
Lemma submit_throws_on_unresolved (st : Recipes.state)
    (item : Recipes.LocalRecipeIngredient.t) :
  Recipes.invalid st (JS.parseFloat (Recipes.totalYield st)) = false ->
  In item (Recipes.ingredientsList st) ->
  Recipes.findIngredient (Recipes.availableIngredients st)
    (Recipes.LocalRecipeIngredient.ingredientId item) = None ->
  exists e, Recipes.handleSubmit st = Throw e.
Proof.
  intros Hv Hin Hf. rewrite (handleSubmit_valid _ Hv).
  destruct (mapArray_throws _ _ _ TypeError Hin (finalIngredient_unresolved _ _ Hf)) as [e He].
  rewrite He. now exists e.
Qed.

(** X6: adding a blank row leaves the displayed total as it was, and removing
    the row just added gives the form back; and as long as no ingredient has
    the empty id, a submit with the blank row in the list writes nothing. *)
Theorem blank_row_is_inert (st : Recipes.state) :
  Recipes.calculateTotalCost (RecipesForm.addIngredientRow st)
  = Recipes.calculateTotalCost st
  /\ length (Recipes.ingredientsList (RecipesForm.addIngredientRow st))
     = S (length (Recipes.ingredientsList st))
  /\ RecipesForm.removeIngredientRow (RecipesForm.addIngredientRow st)
       (length (Recipes.ingredientsList st)) = st
  /\ (Recipes.findIngredient (Recipes.availableIngredients st) "" = None ->
      forall o, Recipes.handleSubmit (RecipesForm.addIngredientRow st) = Normal o ->
                written o = None).
Proof.
  unfold RecipesForm.addIngredientRow, RecipesForm.removeIngredientRow.
  split; [|split; [|split]].
  - rewrite !calculateTotalCost_sum. unfold Spec.totalCost. simpl.
    rewrite filter_app. simpl.
    assert (Hc : Spec.counts (Recipes.availableIngredients st)
                   {| Recipes.LocalRecipeIngredient.ingredientId := "";
                      Recipes.LocalRecipeIngredient.quantityUsed := "" |} = false).
    { unfold Spec.counts. simpl. now destruct (Spec.resolve _ _). }
    rewrite Hc. now rewrite app_nil_r.
  - simpl. rewrite length_app. simpl. lia.
  - simpl. rewrite splice1_last. destruct st. reflexivity.
  - intros Hf o Ho.
    set (st' := setIngredientsList st _) in *.
    destruct (Recipes.invalid st' (JS.parseFloat (Recipes.totalYield st'))) eqn:Hv.
    + rewrite (handleSubmit_invalid _ Hv) in Ho. injection Ho as <-. reflexivity.
    + destruct (submit_throws_on_unresolved st'
                  {| Recipes.LocalRecipeIngredient.ingredientId := "";
                     Recipes.LocalRecipeIngredient.quantityUsed := "" |} Hv) as [e He].
      * simpl. apply in_or_app. right. now left.
      * exact Hf.
      * rewrite He in Ho. discriminate.
Qed.

Lemma blank_row_is_inert_run :
  Recipes.calculateTotalCost
    (RecipesForm.addIngredientRow (form "Torta" [usage "i1" "200"] "1000"))
  = Normal 2000%float
  /\ Recipes.handleSubmit
       (RecipesForm.addIngredientRow (form "Torta" [usage "i1" "200"] "1000"))
     = Throw TypeError.
Proof.
  destruct (blank_row_is_inert (form "Torta" [usage "i1" "200"] "1000")) as (Ht & _).
  split; [rewrite Ht; reflexivity | reflexivity].
Defined.

(** X7: removing the row at an index drops exactly that row: the rows before
    it keep their place, the rows after it move up by one, the list gets one
    shorter, and an index past the end removes nothing; the rest of the form
    is untouched. *)
Theorem remove_row_drops_one (st : Recipes.state) (index : nat) :
  let before := Recipes.ingredientsList st in
  let after := Recipes.ingredientsList (RecipesForm.removeIngredientRow st index) in
  (index < length before -> S (length after) = length before)
  /\ (length before <= index -> RecipesForm.removeIngredientRow st index = st)
  /\ (forall j, j < index -> nth_error after j = nth_error before j)
  /\ (forall j, index <= j -> nth_error after j = nth_error before (S j))
  /\ Recipes.recipeName (RecipesForm.removeIngredientRow st index) = Recipes.recipeName st
  /\ Recipes.totalYield (RecipesForm.removeIngredientRow st index) = Recipes.totalYield st
  /\ Recipes.editingId (RecipesForm.removeIngredientRow st index) = Recipes.editingId st.
Proof.
  intros before after. unfold after, before, RecipesForm.removeIngredientRow. simpl.
  destruct (splice1_nth index (Recipes.ingredientsList st)) as (Hlen & Hout & Hlow & Hhigh).
  repeat split; try assumption.
  intros H. rewrite (Hout H). apply setIngredientsList_same.
Qed.

Lemma remove_row_run :
  Recipes.ingredientsList
    (RecipesForm.removeIngredientRow
       (form "Torta" [usage "i1" "200"; usage "gone" "1"; usage "i2" "3"] "1000") 1)
  = [usage "i1" "200"; usage "i2" "3"]
  /\ RecipesForm.removeIngredientRow (form "Torta" [usage "i1" "200"] "1000") 1
     = form "Torta" [usage "i1" "200"] "1000".
Proof.
  split; [reflexivity|].
  apply (remove_row_drops_one (form "Torta" [usage "i1" "200"] "1000") 1). simpl. lia.
Defined.

Lemma assignRow_spec (l : list Recipes.LocalRecipeIngredient.t) (index : nat)
    (f : RecipesForm.field) (value : string) :
  match RecipesForm.assignRow l index f value with
  | None => length l <= index
  | Some l' =>
      length l' = length l
      /\ (exists row, nth_error l index = Some row
            /\ nth_error l' index = Some (RecipesForm.withField row f value))
      /\ (forall j, j <> index -> nth_error l' j = nth_error l j)
  end.
Proof.
  revert index. induction l as [|x l IH]; intros index; simpl; [lia|].
  destruct index as [|i]; simpl.
  - split; [reflexivity|]. split; [now exists x|].
    intros j Hj. destruct j; [contradiction | reflexivity].
  - specialize (IH i). destruct (RecipesForm.assignRow l i f value) as [l'|]; simpl.
    + destruct IH as (Hlen & Hrow & Hoth). split; [now rewrite Hlen|].
      split; [exact Hrow|]. intros j Hj. destruct j as [|j]; [reflexivity|].
      simpl. apply Hoth. lia.
    + lia.
Qed.

(** X8: changing a field of the row at an index of the list changes that
    field of that row and nothing else: the other field of the row, every
    other row and the length of the list stay as they were. *)
Theorem row_change_is_local (st st' : Recipes.state) (index : nat)
    (f : RecipesForm.field) (value : string) :
  RecipesForm.handleRowChange st index f value = Some st' ->
  index < length (Recipes.ingredientsList st)
  /\ length (Recipes.ingredientsList st') = length (Recipes.ingredientsList st)
  /\ (exists row row',
        nth_error (Recipes.ingredientsList st) index = Some row
        /\ nth_error (Recipes.ingredientsList st') index = Some row'
        /\ match f with
           | RecipesForm.ingredientId =>
               Recipes.LocalRecipeIngredient.ingredientId row' = value
               /\ Recipes.LocalRecipeIngredient.quantityUsed row'
                  = Recipes.LocalRecipeIngredient.quantityUsed row
           | RecipesForm.quantityUsed =>
               Recipes.LocalRecipeIngredient.quantityUsed row' = value
               /\ Recipes.LocalRecipeIngredient.ingredientId row'
                  = Recipes.LocalRecipeIngredient.ingredientId row
           end)
  /\ (forall j, j <> index ->
        nth_error (Recipes.ingredientsList st') j = nth_error (Recipes.ingredientsList st) j).
Proof.
  unfold RecipesForm.handleRowChange. intros H.
  pose proof (assignRow_spec (Recipes.ingredientsList st) index f value) as Hs.
  destruct (RecipesForm.assignRow _ _ _ _) as [l'|]; [|discriminate].
  injection H as <-. simpl. destruct Hs as (Hlen & (row & Hrow & Hrow') & Hoth).
  split.
  - apply nth_error_Some. rewrite Hrow. discriminate.
  - split; [exact Hlen|]. split; [|exact Hoth].
    exists row, (RecipesForm.withField row f value).
    split; [exact Hrow|]. split; [exact Hrow'|]. destruct f; simpl; auto.
Qed.

Lemma row_change_run :
  exists st',
    RecipesForm.handleRowChange
      (form "Torta" [usage "i1" "200"; usage "" ""] "1000") 1 RecipesForm.quantityUsed "3"
    = Some st'
    /\ Recipes.ingredientsList st' = [usage "i1" "200"; usage "" "3"]
    /\ length (Recipes.ingredientsList st') = 2.
Proof.
  eexists. split; [reflexivity|]. split; [reflexivity|].
  exact (proj1 (proj2 (row_change_is_local
           (form "Torta" [usage "i1" "200"; usage "" ""] "1000") _ 1
           RecipesForm.quantityUsed "3" eq_refl))).
Defined.

(** X9: the unit label shown beside a quantity agrees with the conversion
    factor for kilogram and liter prices: an ingredient whose factor is 1000
    is labelled [gramos] or [ml], every other resolved ingredient, gram
    priced ones included, is labelled [unidades], and an id that resolves to
    no ingredient is labelled [cant]. *)
Theorem unit_label_and_factor (st : Recipes.state) (id : string) :
  (Recipes.findIngredient (Recipes.availableIngredients st) id = None ->
   RecipesForm.getIngredientUnitLabel st id = "cant")
  /\ (forall ing,
        Recipes.findIngredient (Recipes.availableIngredients st) id = Some ing ->
        (getConversionFactor (Ingredient.unit ing) = 1000%float
         /\ (RecipesForm.getIngredientUnitLabel st id = "gramos"
             \/ RecipesForm.getIngredientUnitLabel st id = "ml"))
        \/ (getConversionFactor (Ingredient.unit ing) = 1%float
            /\ RecipesForm.getIngredientUnitLabel st id = "unidades"))
  /\ (forall ing,
        Recipes.findIngredient (Recipes.availableIngredients st) id = Some ing ->
        Ingredient.unit ing = Unit.GR ->
        RecipesForm.getIngredientUnitLabel st id = "unidades").
Proof.
  unfold RecipesForm.getIngredientUnitLabel, getConversionFactor. split; [|split].
  - intros ->. reflexivity.
  - intros ing ->. unfold Unit.KG, Unit.LT, Unit.GR, Unit.UN.
    destruct (String.eqb (Ingredient.unit ing) "Kg"); [left; auto|].
    destruct (String.eqb (Ingredient.unit ing) "Lt"); [left; auto|].
    right. destruct (String.eqb (Ingredient.unit ing) "Gr"),
      (String.eqb (Ingredient.unit ing) "Un"); auto.
  - intros ing -> ->. reflexivity.
Qed.

Lemma unit_label_run :
  RecipesForm.getIngredientUnitLabel (form "Torta" [] "1") "i1" = "gramos"
  /\ RecipesForm.getIngredientUnitLabel (form "Torta" [] "1") "i2" = "unidades"
  /\ RecipesForm.getIngredientUnitLabel (form "Torta" [] "1") "gone" = "cant".
Proof.
  split; [reflexivity|]. split; [reflexivity|].
  exact (proj1 (unit_label_and_factor (form "Torta" [] "1") "gone") eq_refl).
Defined.

(** ** What a recipe submit writes *)

Lemma mapArray_rows (available : list Ingredient.t)
    (l : list Recipes.LocalRecipeIngredient.t) (rows : list RecipeIngredient.t) :
  mapArray (Recipes.finalIngredient available) l = Normal rows ->
  Forall2 (fun item row =>
             exists ing,
               Recipes.findIngredient available
                 (Recipes.LocalRecipeIngredient.ingredientId item) = Some ing
               /\ RecipeIngredient.ingredientId row
                  = Recipes.LocalRecipeIngredient.ingredientId item
               /\ RecipeIngredient.quantityUsed row
                  = JS.parseFloat (Recipes.LocalRecipeIngredient.quantityUsed item)
               /\ RecipeIngredient.calculatedCost row
                  = Spec.usageCost ing (RecipeIngredient.quantityUsed row))
          l rows.
Proof.
  revert rows. induction l as [|item l IH]; intros rows; simpl.
  - intros [= <-]. constructor.
  - destruct (Recipes.findIngredient available
                (Recipes.LocalRecipeIngredient.ingredientId item)) as [ing|] eqn:Hf.
    + rewrite (finalIngredient_resolved _ _ _ Hf). simpl.
      destruct (mapArray _ l) as [rs|e]; simpl; [|discriminate].
      intros [= <-]. constructor; [|now apply IH].
      exists ing. simpl. auto.
    + rewrite (finalIngredient_unresolved _ _ Hf). discriminate.
Qed.

Lemma Forall2_ids (available : list Ingredient.t)
    (l : list Recipes.LocalRecipeIngredient.t) (rows : list RecipeIngredient.t) :
  mapArray (Recipes.finalIngredient available) l = Normal rows ->
  map RecipeIngredient.ingredientId rows
  = map Recipes.LocalRecipeIngredient.ingredientId l.
Proof.
  intros H. apply mapArray_rows in H.
  induction H as [|item row l rows (ing & _ & Hid & _) _ IH]; simpl; [reflexivity|].
  now rewrite Hid, IH.
Qed.

(** An [updateDoc] is only ever asked for the recipe being edited. *)
Lemma update_targets_edited (st : Recipes.state) (id : string) (d : Recipes.recipeData) :
  Recipes.handleSubmit st = Normal (Recipes.UpdateDoc id d) ->
  Recipes.editingId st = Some id /\ id <> "".
Proof.
  intros H.
  destruct (Recipes.invalid st (JS.parseFloat (Recipes.totalYield st))) eqn:Hv.
  - rewrite (handleSubmit_invalid _ Hv) in H. discriminate.
  - rewrite (handleSubmit_valid _ Hv) in H.
    destruct (mapArray _ _) as [rows|e]; simpl in H; [|discriminate].
    injection H as H. unfold Recipes.save in H.
    destruct (Recipes.editingId st) as [e|]; [|discriminate].
    destruct (JS.emptyb e) eqn:He; [discriminate|].
    injection H as -> _. split; [reflexivity|].
    intros ->. discriminate.
Qed.

(** X10: every record a recipe submit writes mirrors the form: it carries the
    user id and the non-empty recipe name, a yield greater than 0, a cost per
    gram that is the very number [totalCost / totalYieldWeight], and one row
    per usage, in order, each with the usage's ingredient id, its parsed
    quantity and, as its cost, the very number [(price / factor) * quantity]
    of the ingredient, which resolves. Each of these costs compares [==] to
    its formula unless it is [NaN]. So nothing is written while some usage
    does not resolve. *)
Theorem written_record_mirrors_form (st : Recipes.state) (o : Recipes.outcome)
    (d : Recipes.recipeData) :
  Recipes.handleSubmit st = Normal o ->
  written o = Some d ->
  Recipes.rd_userId d = Recipes.userId st
  /\ Recipes.rd_name d = Recipes.recipeName st
  /\ Recipes.rd_name d <> ""
  /\ PrimFloat.ltb 0 (Recipes.rd_totalYieldWeight d) = true
  /\ Recipes.rd_costPerGram d
     = (Recipes.rd_totalCost d / Recipes.rd_totalYieldWeight d)%float
  /\ PrimFloat.eqb (Recipes.rd_costPerGram d)
       (Recipes.rd_totalCost d / Recipes.rd_totalYieldWeight d)%float
     = negb (JS.isNaN (Recipes.rd_costPerGram d))
  /\ Forall2 (fun item row =>
                exists ing,
                  Recipes.findIngredient (Recipes.availableIngredients st)
                    (Recipes.LocalRecipeIngredient.ingredientId item) = Some ing
                  /\ RecipeIngredient.ingredientId row
                     = Recipes.LocalRecipeIngredient.ingredientId item
                  /\ RecipeIngredient.quantityUsed row
                     = JS.parseFloat (Recipes.LocalRecipeIngredient.quantityUsed item)
                  /\ RecipeIngredient.calculatedCost row
                     = Spec.usageCost ing (RecipeIngredient.quantityUsed row)
                  /\ PrimFloat.eqb (RecipeIngredient.calculatedCost row)
                       (Spec.usageCost ing (RecipeIngredient.quantityUsed row))
                     = negb (JS.isNaN (RecipeIngredient.calculatedCost row)))
             (Recipes.ingredientsList st) (Recipes.rd_ingredients d).
Proof.
  intros Ho Hw.
  destruct (handleSubmit_written _ _ _ Ho Hw) as (Hv & Hrows & Hy & _ & Hg).
  apply valid_spec in Hv. destruct Hv as (Hn & _ & Hpos).
  assert (Hd : Recipes.rd_userId d = Recipes.userId st
               /\ Recipes.rd_name d = Recipes.recipeName st).
  { destruct (Recipes.invalid st (JS.parseFloat (Recipes.totalYield st))) eqn:Hv.
    - rewrite (handleSubmit_invalid _ Hv) in Ho. injection Ho as <-. discriminate.
    - rewrite (handleSubmit_valid _ Hv) in Ho.
      destruct (mapArray _ _) as [rows|e]; simpl in Ho; [|discriminate].
      injection Ho as <-. rewrite save_written in Hw. injection Hw as <-. now split. }
  destruct Hd as [Hu Hname].
  split; [exact Hu|]. split; [exact Hname|]. split; [now rewrite Hname|].
  split; [now rewrite Hy|]. split; [exact Hg|]. split; [now apply eqb_same|].
  apply mapArray_rows in Hrows. revert Hrows. apply Forall2_impl.
  intros item row (ing & Hf & Hid & Hq & Hc). exists ing.
  repeat (split; [assumption|]). now apply eqb_same.
Qed.

Lemma written_record_run :
  exists d,
    Recipes.handleSubmit (form "Torta" [usage "i1" "200"; usage "i2" "3"] "1000")
    = Normal (Recipes.AddDoc d)
    /\ Recipes.rd_name d = "Torta"
    /\ map RecipeIngredient.ingredientId (Recipes.rd_ingredients d) = ["i1"; "i2"].
Proof.
  destruct (Recipes.handleSubmit (form "Torta" [usage "i1" "200"; usage "i2" "3"] "1000"))
    as [[|id d|d]|e] eqn:Hs; try discriminate Hs.
  exists d.
  destruct (written_record_mirrors_form _ _ d Hs eq_refl) as (_ & Hn & _).
  injection Hs as <-. exact (conj eq_refl (conj Hn eq_refl)).
Defined.

(** X11: after a saved recipe is loaded into the form with [handleEdit],
    whatever a submit writes is an update of that same recipe (given that its
    id is not empty), under the same name and with the same ingredient ids in
    the same order, however numbers are printed. *)
Theorem edit_then_submit_updates (numberToString : JS.number -> string)
    (st : Recipes.state) (recipe : Recipe.t) (o : Recipes.outcome)
    (d : Recipes.recipeData) :
  Recipe.id recipe <> "" ->
  Recipes.handleSubmit (RecipesForm.handleEdit numberToString st recipe) = Normal o ->
  written o = Some d ->
  o = Recipes.UpdateDoc (Recipe.id recipe) d
  /\ Recipes.rd_name d = Recipe.name recipe
  /\ Recipes.rd_userId d = Recipes.userId st
  /\ map RecipeIngredient.ingredientId (Recipes.rd_ingredients d)
     = map RecipeIngredient.ingredientId (Recipe.ingredients recipe).
Proof.
  intros Hid Ho Hw.
  set (st' := RecipesForm.handleEdit numberToString st recipe) in *.
  destruct (handleSubmit_written _ _ _ Ho Hw) as (Hv & Hrows & _).
  assert (Ho' := Ho). rewrite (handleSubmit_valid _ Hv) in Ho'. rewrite Hrows in Ho'.
  simpl in Ho'. injection Ho' as <-.
  assert (He : JS.emptyb (Recipe.id recipe) = false).
  { apply not_true_iff_false. now rewrite emptyb_true. }
  rewrite He in Hw |- *. injection Hw as <-. simpl.
  split; [reflexivity|]. split; [reflexivity|]. split; [reflexivity|].
  rewrite (Forall2_ids _ _ _ Hrows). unfold st'. simpl. now rewrite map_map.
Qed.

Lemma edit_then_submit_run :
  exists d,
    Recipes.handleSubmit (RecipesForm.handleEdit sampleToString (form "" [] "") cake)
    = Normal (Recipes.UpdateDoc "r1" d)
    /\ Recipes.rd_name d = "Torta"
    /\ Recipes.rd_totalCost d = Recipe.totalCost cake
    /\ Recipes.rd_costPerGram d = Recipe.costPerGram cake.
Proof.
  assert (Hid : Recipe.id cake <> "") by discriminate.
  destruct (Recipes.handleSubmit (RecipesForm.handleEdit sampleToString (form "" [] "") cake))
    as [[|id d|d]|e] eqn:Hs; try discriminate Hs.
  exists d.
  destruct (edit_then_submit_updates sampleToString _ cake _ d Hid Hs eq_refl)
    as (Ho & Hn & _).
  injection Ho as ->. injection Hs as <-.
  exact (conj eq_refl (conj Hn (conj eq_refl eq_refl))).
Defined.

(** X12: [deleteDoc] is called exactly for a non-empty id that the user
    confirmed. When the delete succeeds and the recipe that was being edited
    at the click is the deleted one, the form is reset, whatever its state
    when the promise settles: name, rows and yield are emptied and no recipe
    is being edited any more, so that a submit stops at validation. In every
    other case the state found when the promise settles is left as it is. So
    after a successful delete the form is not editing the deleted recipe,
    and no submit that keeps its editing id updates it, provided the form
    did not start editing that recipe while the delete was pending; if it
    did, the form is not reset and goes on editing the deleted recipe. *)
Theorem delete_clears_edited_recipe (st : Recipes.state) (id : string)
    (confirmed deleted : bool) :
  let called := fst (RecipesForm.handleDelete st id confirmed deleted) in
  let update := snd (RecipesForm.handleDelete st id confirmed deleted) in
  (called = true <-> id <> "" /\ confirmed = true)
  /\ (called = true -> deleted = true -> Recipes.editingId st = Some id ->
      forall now,
        Recipes.recipeName (update now) = ""
        /\ Recipes.ingredientsList (update now) = []
        /\ Recipes.totalYield (update now) = ""
        /\ Recipes.editingId (update now) = None
        /\ Recipes.userId (update now) = Recipes.userId now
        /\ Recipes.availableIngredients (update now) = Recipes.availableIngredients now
        /\ Recipes.handleSubmit (update now) = Normal Recipes.Alert)
  /\ (called = false \/ deleted = false \/ Recipes.editingId st <> Some id ->
      forall now, update now = now)
  /\ (called = true -> deleted = true ->
      forall now,
        (Recipes.editingId now = Some id -> Recipes.editingId st = Some id) ->
        Recipes.editingId (update now) <> Some id
        /\ forall later,
             Recipes.editingId later = Recipes.editingId (update now) ->
             forall d, Recipes.handleSubmit later <> Normal (Recipes.UpdateDoc id d))
  /\ (called = true -> deleted = true ->
      forall now,
        Recipes.editingId st <> Some id -> Recipes.editingId now = Some id ->
        Recipes.editingId (update now) = Some id).
Proof.
  assert (Hsafe : forall st1 : Recipes.state, Recipes.editingId st1 <> Some id ->
            forall later, Recipes.editingId later = Recipes.editingId st1 ->
            forall d, Recipes.handleSubmit later <> Normal (Recipes.UpdateDoc id d)).
  { intros st1 Hne later Hl d H. apply update_targets_edited in H.
    destruct H as [H _]. congruence. }
  unfold RecipesForm.handleDelete, RecipesForm.isEditing.
  destruct (JS.emptyb id) eqn:He; simpl.
  { apply emptyb_true in He. split; [split; [discriminate | intros [H _]; contradiction]|].
    split; [discriminate|]. split; [reflexivity|]. split; discriminate. }
  assert (Hid : id <> "").
  { intros H. apply emptyb_true in H. congruence. }
  destruct confirmed; simpl.
  2:{ split; [split; [discriminate | intros [_ H]; discriminate]|].
      split; [discriminate|]. split; [reflexivity|]. split; discriminate. }
  destruct deleted; simpl.
  2:{ split; [split; auto|]. split; [discriminate|]. split; [reflexivity|].
      split; discriminate. }
  split; [split; auto|].
  destruct (Recipes.editingId st) as [e|] eqn:Hed.
  - destruct (String.eqb_spec e id) as [->|Hne]; simpl.
    + split; [intros _ _ _ now; repeat split; reflexivity|].
      split; [intros [H|[H|H]]; [discriminate | discriminate | now elim H]|].
      split.
      * intros _ _ now _. split; [discriminate|].
        apply (Hsafe (RecipesForm.resetForm now)). discriminate.
      * intros _ _ now H. now elim H.
    + assert (Hne' : Some e <> Some id) by (intros [= H]; contradiction).
      split; [intros _ _ H; now elim Hne'|]. split; [reflexivity|]. split.
      * intros _ _ now Hnow.
        assert (Hn : Recipes.editingId now <> Some id).
        { intros H. now apply Hne', Hnow. }
        split; [exact Hn | now apply Hsafe].
      * intros _ _ now _ Hnow. exact Hnow.
  - split; [discriminate|]. split; [reflexivity|]. split.
    + intros _ _ now Hnow.
      assert (Hn : Recipes.editingId now <> Some id).
      { intros H. apply Hnow in H. discriminate. }
      split; [exact Hn | now apply Hsafe].
    + intros _ _ now _ Hnow. exact Hnow.
Qed.

(** The recipe being edited is deleted while new text is typed: the form is
    blank afterwards. A recipe that starts being edited while its delete is
    pending stays in the form, and a submit then updates the deleted recipe. *)
Lemma delete_clears_run :
  Recipes.editingId
    (snd (RecipesForm.handleDelete
            (RecipesForm.handleEdit sampleToString (form "" [] "") cake) "r1" true true)
         (form "Otra" [usage "i1" "200"] "1000"))
  = None
  /\ Recipes.handleSubmit
       (snd (RecipesForm.handleDelete
               (RecipesForm.handleEdit sampleToString (form "" [] "") cake) "r1" true true)
            (form "Otra" [usage "i1" "200"] "1000"))
     = Normal Recipes.Alert
  /\ Recipes.editingId
       (snd (RecipesForm.handleDelete (form "" [] "") "r1" true true)
            (RecipesForm.handleEdit sampleToString (form "" [] "") cake))
     = Some "r1"
  /\ exists d,
       Recipes.handleSubmit
         (snd (RecipesForm.handleDelete (form "" [] "") "r1" true true)
              (RecipesForm.handleEdit sampleToString (form "" [] "") cake))
       = Normal (Recipes.UpdateDoc "r1" d).
Proof.
  pose proof (delete_clears_edited_recipe
                (RecipesForm.handleEdit sampleToString (form "" [] "") cake) "r1" true true)
    as (_ & Hreset & _).
  destruct (Hreset eq_refl eq_refl eq_refl (form "Otra" [usage "i1" "200"] "1000"))
    as (_ & _ & _ & Hed & _ & _ & Hsub).
  split; [exact Hed|]. split; [exact Hsub|].
  pose proof (delete_clears_edited_recipe (form "" [] "") "r1" true true)
    as (_ & _ & _ & _ & Hrace).
  assert (Hne : Recipes.editingId (form "" [] "") <> Some "r1") by discriminate.
  split.
  - exact (Hrace eq_refl eq_refl
             (RecipesForm.handleEdit sampleToString (form "" [] "") cake) Hne eq_refl).
  - eexists. reflexivity.
Defined.

(** ** Names in the ingredient form *)

Lemma differs_spec (id : string) (editingId : option string) :
  Ingredients.differs id editingId = true <-> editingId <> Some id.
Proof.
  unfold Ingredients.differs. destruct editingId as [e|].
  - rewrite negb_true_iff. destruct (String.eqb_spec id e) as [->|Hne].
    + split; [discriminate | intros H; now elim H].
    + split; [intros _ [= H]; now elim Hne | reflexivity].
  - split; [discriminate | reflexivity].
Qed.

(** The duplicate check finds an ingredient other than the one being edited
    whose name, in lower case, is the lower-cased trimmed name. *)
Lemma exists_spec (ingredients : list Ingredient.t) (trimmedName : string)
    (editingId : option string) :
  Ingredients.exists_ ingredients trimmedName editingId = true <->
  exists ing, In ing ingredients
    /\ JS.toLowerCase (Ingredient.name ing) = JS.toLowerCase trimmedName
    /\ editingId <> Some (Ingredient.id ing).
Proof.
  unfold Ingredients.exists_. rewrite existsb_exists. split.
  - intros (ing & Hin & H). apply andb_true_iff in H. destruct H as [Hn Hd].
    exists ing. split; [exact Hin|]. split; [now apply String.eqb_eq | now apply differs_spec].
  - intros (ing & Hin & Hn & Hd). exists ing. split; [exact Hin|].
    apply andb_true_iff. split; [now apply String.eqb_eq | now apply differs_spec].
Qed.

(** X13: the ingredient form never writes a name that, compared in lower
    case, is the name of another ingredient of the list (any ingredient but
    the one being edited); with a non-empty trimmed name and price, the
    submit is refused as a duplicate exactly when there is such an
    ingredient; and an update is only asked for the ingredient being edited. *)
Theorem no_duplicate_name_written (st : Ingredients.state) :
  (forall d, writtenIngredient (Ingredients.handleSubmit st) = Some d ->
     forall ing, In ing (Ingredients.ingredients st) ->
       Ingredients.editingId st <> Some (Ingredient.id ing) ->
       JS.toLowerCase (Ingredient.name ing) <> JS.toLowerCase (Ingredients.d_name d))
  /\ (Ingredients.handleSubmit st = Ingredients.DuplicateError <->
      JS.trim (Ingredients.name st) <> "" /\ Ingredients.price st <> ""
      /\ exists ing, In ing (Ingredients.ingredients st)
           /\ JS.toLowerCase (Ingredient.name ing)
              = JS.toLowerCase (JS.trim (Ingredients.name st))
           /\ Ingredients.editingId st <> Some (Ingredient.id ing))
  /\ (forall id d, Ingredients.handleSubmit st = Ingredients.UpdateDoc id d ->
        Ingredients.editingId st = Some id /\ id <> "").
Proof.
  split; [|split].
  - intros d Hw ing Hin Hed Hname.
    apply ingredient_written in Hw. destruct Hw as (_ & _ & Hex & ->). simpl in Hname.
    assert (Ht : Ingredients.exists_ (Ingredients.ingredients st)
                   (JS.trim (Ingredients.name st)) (Ingredients.editingId st) = true).
    { apply exists_spec. now exists ing. }
    congruence.
  - rewrite <- exists_spec. unfold Ingredients.handleSubmit.
    destruct (JS.emptyb (JS.trim (Ingredients.name st))) eqn:Hn; simpl.
    { apply emptyb_true in Hn. split; [discriminate | intros (H & _); contradiction]. }
    destruct (JS.emptyb (Ingredients.price st)) eqn:Hp; simpl.
    { apply emptyb_true in Hp. split; [discriminate | intros (_ & H & _); contradiction]. }
    destruct (Ingredients.exists_ _ _ _); simpl.
    + split; [|reflexivity]. intros _.
      split; [intros H; apply emptyb_true in H; congruence|].
      split; [intros H; apply emptyb_true in H; congruence | reflexivity].
    + split; [|intros (_ & _ & H); discriminate].
      intros H. pose proof (ingredient_save_written (Ingredients.editingId st)
        {| Ingredients.d_name := JS.trim (Ingredients.name st);
           Ingredients.d_unit := Ingredients.unit st;
           Ingredients.d_pricePerUnit := JS.parseFloat (Ingredients.price st);
           Ingredients.d_userId := Ingredients.userId st |}) as Hw.
      rewrite H in Hw. discriminate.
  - intros id d. unfold Ingredients.handleSubmit.
    destruct (JS.emptyb (JS.trim (Ingredients.name st)) || JS.emptyb (Ingredients.price st));
      [discriminate|].
    destruct (Ingredients.exists_ _ _ _); [discriminate|].
    unfold Ingredients.save. destruct (Ingredients.editingId st) as [e|]; [|discriminate].
    destruct (JS.emptyb e) eqn:He; [discriminate|].
    intros [= -> _]. split; [reflexivity|]. intros ->. discriminate.
Qed.

Lemma no_duplicate_name_run :
  Ingredients.handleSubmit (ingredientForm " huevo " "7") = Ingredients.DuplicateError
  /\ Ingredients.handleSubmit (ingredientForm "HARINA DE ALMENDRAS" "7")
     = Ingredients.DuplicateError.
Proof.
  split.
  - apply (proj1 (proj2 (no_duplicate_name_written (ingredientForm " huevo " "7")))).
    split; [discriminate|]. split; [discriminate|].
    exists egg. split; [simpl; auto|]. split; [reflexivity | discriminate].
  - apply (proj1 (proj2 (no_duplicate_name_written
                           (ingredientForm "HARINA DE ALMENDRAS" "7")))).
    split; [discriminate|]. split; [discriminate|].
    exists almondFlour. split; [simpl; auto|]. split; [reflexivity | discriminate].
Defined.

(** X14: an ingredient loaded into the form with [handleEdit] can be saved
    again under its own name: when no other ingredient has that name (in
    lower case, trimmed), its id and trimmed name are not empty and its price
    prints as a non-empty text, the submit asks for an update of that same
    ingredient with its trimmed name, its unit and the price parsed back. *)
Theorem resave_own_name (numberToString : JS.number -> string)
    (st : Ingredients.state) (ing : Ingredient.t) :
  Ingredient.id ing <> "" ->
  JS.trim (Ingredient.name ing) <> "" ->
  numberToString (Ingredient.pricePerUnit ing) <> "" ->
  (forall other, In other (Ingredients.ingredients st) ->
     Ingredient.id other <> Ingredient.id ing ->
     JS.toLowerCase (Ingredient.name other)
     <> JS.toLowerCase (JS.trim (Ingredient.name ing))) ->
  Ingredients.handleSubmit (IngredientsForm.handleEdit numberToString st ing)
  = Ingredients.UpdateDoc (Ingredient.id ing)
      {| Ingredients.d_name := JS.trim (Ingredient.name ing);
         Ingredients.d_unit := Ingredient.unit ing;
         Ingredients.d_pricePerUnit :=
           JS.parseFloat (numberToString (Ingredient.pricePerUnit ing));
         Ingredients.d_userId := Ingredients.userId st |}.
Proof.
  intros Hid Hname Hprice Huniq.
  unfold Ingredients.handleSubmit, IngredientsForm.handleEdit. simpl.
  assert (H1 : JS.emptyb (JS.trim (Ingredient.name ing)) = false).
  { apply not_true_iff_false. now rewrite emptyb_true. }
  assert (H2 : JS.emptyb (numberToString (Ingredient.pricePerUnit ing)) = false).
  { apply not_true_iff_false. now rewrite emptyb_true. }
  assert (H3 : JS.emptyb (Ingredient.id ing) = false).
  { apply not_true_iff_false. now rewrite emptyb_true. }
  rewrite H1, H2. simpl.
  destruct (Ingredients.exists_ _ _ _) eqn:Hex.
  - apply exists_spec in Hex. destruct Hex as (other & Hin & Hl & Hd).
    elim (Huniq other Hin); [|exact Hl]. intros He. apply Hd. now rewrite He.
  - now rewrite H3.
Qed.

Lemma resave_own_name_run :
  Ingredients.handleSubmit
    (IngredientsForm.handleEdit sampleToString (ingredientForm "" "") egg)
  = Ingredients.UpdateDoc "i2"
      {| Ingredients.d_name := "Huevo";
         Ingredients.d_unit := Unit.UN;
         Ingredients.d_pricePerUnit := 5%float;
         Ingredients.d_userId := "u1" |}.
Proof.
  assert (Hid : Ingredient.id egg <> "") by discriminate.
  assert (Hn : JS.trim (Ingredient.name egg) <> "") by discriminate.
  assert (Hp : sampleToString (Ingredient.pricePerUnit egg) <> "") by discriminate.
  apply (resave_own_name sampleToString (ingredientForm "" "") egg Hid Hn Hp).
  intros other [<-|[<-|[]]] Hne; [discriminate | now elim Hne].
Defined.
